(** * Multi-cloud CI/CT/CD simulator: verification and mitigation engine

    A shallow embedding of [app.py]: the scenario catalogue, the asset
    generator, the truth check run at every pipeline step, the mitigation
    that edits the assets, and the body of the Streamlit script that ties
    them to the session state.

    Modelling conventions.
    - Text is a [string] of bytes, the UTF-8 encoding of the Python [str].
      Substring search, [split] and [replace] agree on code points and on
      their UTF-8 bytes; [strip] recognises Python's white space in its
      encoded form.
    - The file system is a finite map from absolute paths to nodes. A file
      is held as what its reader obtains from it: a text file as its text,
      [endpoint_profile.json] as the value [json.load] returns, [iac.yaml]
      as the value [yaml.safe_load] returns, a CSV file as the frame
      [pd.read_csv] returns. Writing a value with [json.dumps],
      [yaml.safe_dump] or [to_csv] and reading it back is taken to give
      the value back. A file whose content its reader rejects is any
      artifact of another kind.
    - Paths are strings, and a directory is one key of the map: the model
      is that of absolute paths in normal form, as the program's
      [/tmp/ci_ct_cd_sim/<demo>] are. A path with a trailing slash, a
      [.] or a [..] names no directory of the model; the properties that
      state a success or the text of an error ask for [normal_path].
      Permissions and symbolic links are not modelled.
    - Python exceptions are values of [exn]; a computation that can raise
      lives in [result].
    - JSON and YAML numbers are integers. A numeric cell of a data frame
      is a finite number, held as a rational, or missing (NaN).
    - The installed pandas is a parameter, [Pandas]: the program pins no
      version, [fillna(method=...)] raises a TypeError from pandas 3.0 on,
      and the value of a float mean is fixed by the library's arithmetic.
      Where [fillna(method=...)] is accepted it is the documented forward
      and backward fill. *)

From stdpp Require Import gmap strings list pretty.
From Stdlib Require Import QArith Qabs.
Close Scope Q_scope.
Open Scope string_scope.
Open Scope Z_scope.

(** ** Python strings *)

Module PyStr.

Definition LF : string := String (Ascii.ascii_of_nat 10) "".

(** [sub in s] *)
Fixpoint contains (sub s : string) : bool :=
  String.prefix sub s ||
  match s with
  | "" => false
  | String _ s' => contains sub s'
  end.

(** [s.split(sep)] for a non-empty separator: the pieces between the
    non-overlapping occurrences of [sep], scanning from the left. [skip]
    counts the characters of a matched separator still to be dropped. *)
Fixpoint split_aux (sep : string) (skip : nat) (s : string) : list string :=
  match s with
  | "" => [""]
  | String c s' =>
      match skip with
      | S k => split_aux sep k s'
      | O =>
          if String.prefix sep s
          then "" :: split_aux sep (String.length sep - 1) s'
          else match split_aux sep 0 s' with
               | h :: t => String c h :: t
               | [] => [String c ""]
               end
      end
  end.

Definition split (sep s : string) : list string := split_aux sep 0 s.

(** [s.replace(old, new)] for a non-empty [old]. *)
Fixpoint replace_aux (old new : string) (skip : nat) (s : string) : string :=
  match s with
  | "" => ""
  | String c s' =>
      match skip with
      | S k => replace_aux old new k s'
      | O =>
          if String.prefix old s
          then new +:+ replace_aux old new (String.length old - 1) s'
          else String c (replace_aux old new 0 s')
      end
  end.

Definition replace (old new s : string) : string := replace_aux old new 0 s.

Definition chr (n : nat) : string := String (Ascii.ascii_of_nat n) "".

(** The characters [str.isspace] accepts, UTF-8 encoded: U+0009..U+000D,
    U+001C..U+001F, U+0020, U+0085, U+00A0, U+1680, U+2000..U+200A, U+2028,
    U+2029, U+202F, U+205F, U+3000. *)
Definition whitespace : list string :=
  (chr <$> [9; 10; 11; 12; 13; 28; 29; 30; 31; 32]%nat) ++
  [chr 194 +:+ chr 133; chr 194 +:+ chr 160; chr 225 +:+ chr 154 +:+ chr 128] ++
  ((λ b, chr 226 +:+ chr 128 +:+ chr b) <$>
     [128; 129; 130; 131; 132; 133; 134; 135; 136; 137; 138; 168; 169; 175]%nat) ++
  [chr 226 +:+ chr 129 +:+ chr 159; chr 227 +:+ chr 128 +:+ chr 128].

(** Length of the pattern of [pats] that [s] starts with, 0 when none does. *)
Fixpoint match_len (pats : list string) (s : string) : nat :=
  match pats with
  | [] => 0
  | p :: ps => if String.prefix p s then String.length p else match_len ps s
  end.

Fixpoint lstrip_aux (pats : list string) (skip : nat) (s : string) : string :=
  match s with
  | "" => ""
  | String c s' =>
      match skip with
      | S k => lstrip_aux pats k s'
      | O =>
          match match_len pats s with
          | O => s
          | S k => lstrip_aux pats k s'
          end
      end
  end.

Definition lstrip (s : string) : string := lstrip_aux whitespace 0 s.

Definition rstrip (s : string) : string :=
  String.rev (lstrip_aux (String.rev <$> whitespace) 0 (String.rev s)).

(** [s.strip()] *)
Definition strip (s : string) : string := rstrip (lstrip s).

(** [len(s) > 0] *)
Definition nonempty (s : string) : bool :=
  match s with "" => false | _ => true end.

(** [xs[1]] on a list, [None] standing for IndexError. *)
Definition item1 (xs : list string) : option string := xs !! 1%nat.

End PyStr.

(** ** Python values read from JSON and YAML *)

#[local] Set Warnings "-register-all".

Inductive pyval : Type :=
| PyNone
| PyBool (b : bool)
| PyInt (n : Z)
| PyStr (s : string)
| PyList (items : list pyval)
| PyDict (items : list (string * pyval)).

Module PyVal.

(** Truth value of an object, as [not v] and [if v] use it. *)
Definition truthy (v : pyval) : bool :=
  match v with
  | PyNone => false
  | PyBool b => b
  | PyInt n => negb (n =? 0)
  | PyStr s => PyStr.nonempty s
  | PyList l => match l with [] => false | _ => true end
  | PyDict d => match d with [] => false | _ => true end
  end.

(** [type(v).__name__] *)
Definition type_name (v : pyval) : string :=
  match v with
  | PyNone => "NoneType"
  | PyBool _ => "bool"
  | PyInt _ => "int"
  | PyStr _ => "str"
  | PyList _ => "list"
  | PyDict _ => "dict"
  end.

(** A [dict] keeps insertion order; it is an association list read at the
    first binding of a key. *)
Fixpoint dict_get (k : string) (d : list (string * pyval)) : option pyval :=
  match d with
  | [] => None
  | (k', v) :: d' => if String.eqb k k' then Some v else dict_get k d'
  end.

(** [d[k] = v]: update in place, or append a new key. *)
Fixpoint dict_set (k : string) (v : pyval) (d : list (string * pyval))
  : list (string * pyval) :=
  match d with
  | [] => [(k, v)]
  | (k', v') :: d' =>
      if String.eqb k k' then (k, v) :: d' else (k', v') :: dict_set k v d'
  end.

(** The message of the AttributeError [v.get] raises on a non-dict. *)
Definition no_get (v : pyval) : string :=
  "'" +:+ type_name v +:+ "' object has no attribute 'get'".

(** The message of the TypeError [v <= 1000] raises on a non-number. *)
Definition no_le_int (v : pyval) : string :=
  "'<=' not supported between instances of '" +:+ type_name v +:+ "' and 'int'".

(** The message of the TypeError [v[key] = x] raises on a non-dict, for a
    string [key]. *)
Definition no_setitem (v : pyval) : string :=
  match v with
  | PyList _ => "list indices must be integers or slices, not str"
  | _ => "'" +:+ type_name v +:+ "' object does not support item assignment"
  end.

End PyVal.

(** ** Data frames *)

(** A column read by [pd.read_csv] is numeric (dtype kind in "biufc") or
    of dtype object; [None] is a missing cell (NaN). *)
Inductive column : Type :=
| NumCol (cells : list (option Q))
| ObjCol (cells : list (option string)).

Definition DataFrame : Type := list (string * column).

(** The installed pandas. The program pins no version of it, and two
    things the mitigation relies on are not fixed by the source: whether
    [Series.fillna] still takes [method=...], a keyword that pandas 3.0
    removed, and the value float arithmetic gives [Series.mean()]. *)
Class Pandas : Type := {
  (** the message of the TypeError [fillna(method=...)] raises, [None]
      when the keyword is accepted *)
  fillna_method_error : option string;
  (** the float64 mean of values, not all missing; [None] is NaN *)
  float_mean : list Q → option Q;
  (** values of moderate size cannot overflow, whatever the order of the
      sum: their mean is a number *)
  float_mean_small :
    ∀ vals : list Q,
      vals ≠ [] →
      (Z.of_nat (length vals) <= 2 ^ 20)%Z →
      Forall (λ v, (Qabs v <= inject_Z (2 ^ 1000))%Q) vals →
      is_Some (float_mean vals)
}.

Module Frame.

Definition is_none {A} (c : option A) : bool :=
  match c with None => true | Some _ => false end.

Definition col_isna_any (c : column) : bool :=
  match c with
  | NumCol cells => existsb is_none cells
  | ObjCol cells => existsb is_none cells
  end.

(** [df.isna().any().any()] *)
Definition isna_any (df : DataFrame) : bool :=
  existsb (λ nc, col_isna_any nc.2) df.

(** [name in df.columns] *)
Definition has_column (name : string) (df : DataFrame) : bool :=
  existsb (λ nc, String.eqb name nc.1) df.

Fixpoint get_column (name : string) (df : DataFrame) : option column :=
  match df with
  | [] => None
  | (n, c) :: df' => if String.eqb name n then Some c else get_column name df'
  end.

(** [df[name] = col]: replaces the column of that name or appends one. *)
Fixpoint set_column (name : string) (col : column) (df : DataFrame) : DataFrame :=
  match df with
  | [] => [(name, col)]
  | (n, c) :: df' =>
      if String.eqb name n then (n, col) :: df' else (n, c) :: set_column name col df'
  end.

Definition col_length (c : column) : nat :=
  match c with
  | NumCol cells => length cells
  | ObjCol cells => length cells
  end.

(** [len(df)] *)
Definition nrows (df : DataFrame) : nat :=
  match df with
  | [] => 0%nat
  | (_, c) :: _ => col_length c
  end.

(** [s.mean()]: the mean of the cells present, NaN when there is none. *)
Definition mean {pd : Pandas} (cells : list (option Q)) : option Q :=
  match omap id cells with
  | [] => None
  | vals => float_mean vals
  end.

(** [s.fillna(v)]; filling with NaN changes nothing. *)
Definition fillna {A} (v : option A) (cells : list (option A)) : list (option A) :=
  match v with
  | None => cells
  | Some x => (λ c, match c with None => Some x | Some _ => c end) <$> cells
  end.

(** [s.fillna(method="ffill")]: a missing cell takes the last value seen. *)
Fixpoint ffill_from {A} (last : option A) (cells : list (option A))
  : list (option A) :=
  match cells with
  | [] => []
  | Some x :: cs => Some x :: ffill_from (Some x) cs
  | None :: cs => last :: ffill_from last cs
  end.

Definition ffill {A} (cells : list (option A)) : list (option A) :=
  ffill_from None cells.

(** [s.fillna(method="bfill")]: a missing cell takes the next value. *)
Fixpoint bfill {A} (cells : list (option A)) : list (option A) :=
  match cells with
  | [] => []
  | c :: cs =>
      let r := bfill cs in
      match c with
      | Some x => Some x :: r
      | None => match r with
                | v :: _ => v :: r
                | [] => [None]
                end
      end
  end.

End Frame.

(** ** Exceptions *)

Inductive exn : Type :=
| FileNotFoundError (path : string)
| IsADirectoryError (path : string)
| NotADirectoryError (path : string)
| FileExistsError (path : string)
| ParseError (path : string)
| AttributeError (msg : string)
| TypeError (msg : string)
| IndexError.

(** [str(e)]. [ParseError] stands for what a reader raises on content it
    rejects (UnicodeDecodeError, json.JSONDecodeError, yaml.YAMLError,
    pandas.errors.ParserError); the wording of those messages is the
    libraries' and is not reproduced. *)
Definition str_exn (e : exn) : string :=
  match e with
  | FileNotFoundError p => "[Errno 2] No such file or directory: '" +:+ p +:+ "'"
  | IsADirectoryError p => "[Errno 21] Is a directory: '" +:+ p +:+ "'"
  | NotADirectoryError p => "[Errno 20] Not a directory: '" +:+ p +:+ "'"
  | FileExistsError p => "[Errno 17] File exists: '" +:+ p +:+ "'"
  | ParseError p => "cannot parse '" +:+ p +:+ "'"
  | AttributeError msg => msg
  | TypeError msg => msg
  | IndexError => "list index out of range"
  end.

Inductive result (A : Type) : Type :=
| Ok (a : A)
| Raise (e : exn).

Arguments Ok {A} a.
Arguments Raise {A} e.

#[export] Instance result_ret : MRet result := λ A a, Ok a.
#[export] Instance result_bind : MBind result := λ A B f m,
  match m with
  | Ok a => f a
  | Raise e => Raise e
  end.

Definition raises {A} (m : result A) : bool :=
  match m with Ok _ => false | Raise _ => true end.

(** ** The file system *)

Inductive artifact : Type :=
| Text (s : string)
| Json (v : pyval)
| Yaml (v : pyval)
| Csv (df : DataFrame).

Inductive node : Type :=
| Dir
| File (a : artifact).

Abbreviation filesystem := (gmap string node).

Module FS.

(** [os.path.join(base, name)] for a relative [name] and a [base] that is
    not empty and does not end in a slash. *)
Definition join (base name : string) : string := base +:+ "/" +:+ name.

Definition is_slash (c : Ascii.ascii) : bool := String.eqb (String c "") "/".

(** The part of [s] before its last slash, [None] when it has none. *)
Fixpoint before_last_slash (s : string) : option string :=
  match s with
  | "" => None
  | String c s' =>
      match before_last_slash s' with
      | Some d => Some (String c d)
      | None => if is_slash c then Some "" else None
      end
  end.

(** [os.path.dirname(p)] *)
Definition dirname (p : string) : string :=
  match before_last_slash p with
  | Some "" => "/"
  | Some d => d
  | None => ""
  end.

(** The directories above [rest], outermost first; [seen] is the part of
    the path already read. *)
Fixpoint ancestors_aux (seen rest : string) : list string :=
  match rest with
  | "" => []
  | String c r =>
      (if is_slash c && PyStr.nonempty seen then [seen] else []) ++
      ancestors_aux (seen +:+ String c "") r
  end.

Definition ancestors (p : string) : list string := ancestors_aux "" p.

(** [os.path.exists(p)] *)
Definition exists_ (fs : filesystem) (p : string) : bool :=
  match fs !! p with Some _ => true | None => false end.

(** [p] lies strictly below the directory [d]. *)
Definition below (d p : string) : bool := String.prefix (d +:+ "/") p.

(** What [open] raises on a path [p] that is not there, [dirs] being the
    directories above it, outermost first: the walk down to [p] stops at
    the first of them that is missing or is a regular file. *)
Fixpoint walk (fs : filesystem) (dirs : list string) (p : string) : exn :=
  match dirs with
  | [] => FileNotFoundError p
  | d :: ds =>
      match fs !! d with
      | Some Dir => walk fs ds p
      | Some (File _) => NotADirectoryError p
      | None => FileNotFoundError p
      end
  end.

Definition missing (fs : filesystem) (p : string) : exn :=
  walk fs (ancestors p) p.

(** [shutil.rmtree(p)] *)
Definition rmtree (fs : filesystem) (p : string) : result filesystem :=
  match fs !! p with
  | Some Dir =>
      Ok (filter (λ kv : string * node,
                    (String.eqb p kv.1 || below p kv.1) = false) fs)
  | Some (File _) => Raise (NotADirectoryError p)
  | None => Raise (FileNotFoundError p)
  end.

(** Creates the directories of [paths] in turn, each the parent of the
    next; one that exists as a directory is kept. *)
Fixpoint mkdirs (paths : list string) (fs : filesystem) : result filesystem :=
  match paths with
  | [] => Ok fs
  | q :: qs =>
      match fs !! q with
      | None => mkdirs qs (<[q := Dir]> fs)
      | Some Dir => mkdirs qs fs
      | Some (File _) =>
          Raise (match qs with
                 | [] => FileExistsError q
                 | q' :: _ => NotADirectoryError q'
                 end)
      end
  end.

(** [os.makedirs(p, exist_ok=True)]; the empty path is refused. *)
Definition makedirs (fs : filesystem) (p : string) : result filesystem :=
  if PyStr.nonempty p then mkdirs (ancestors p ++ [p])%list fs
  else Raise (FileNotFoundError p).

(** [open(p)] for reading: the content of the file at [p]. *)
Definition open_read (fs : filesystem) (p : string) : result artifact :=
  match fs !! p with
  | Some (File a) => Ok a
  | Some Dir => Raise (IsADirectoryError p)
  | None => Raise (missing fs p)
  end.

(** [open(p, encoding="utf-8").read()] *)
Definition read_text (fs : filesystem) (p : string) : result string :=
  a ← open_read fs p;
  match a with Text s => Ok s | _ => Raise (ParseError p) end.

(** [json.load(open(p))] *)
Definition read_json (fs : filesystem) (p : string) : result pyval :=
  a ← open_read fs p;
  match a with Json v => Ok v | _ => Raise (ParseError p) end.

(** [yaml.safe_load(open(p))] *)
Definition read_yaml (fs : filesystem) (p : string) : result pyval :=
  a ← open_read fs p;
  match a with Yaml v => Ok v | _ => Raise (ParseError p) end.

(** [pd.read_csv(p)] *)
Definition read_csv (fs : filesystem) (p : string) : result DataFrame :=
  a ← open_read fs p;
  match a with Csv df => Ok df | _ => Raise (ParseError p) end.

(** [open(p, "w")] followed by writing [a] and closing: the file is
    created or truncated; its directory must exist. *)
Definition open_write (fs : filesystem) (p : string) (a : artifact)
  : result filesystem :=
  match fs !! p with
  | Some Dir => Raise (IsADirectoryError p)
  | _ =>
      match fs !! dirname p with
      | Some Dir => Ok (<[p := File a]> fs)
      | Some (File _) => Raise (NotADirectoryError p)
      | None => Raise (missing fs p)
      end
  end.

(** [open(p, "a")] followed by writing [s]: the text is added at the end
    of the file, which is created when missing. A file that does not
    decode as text still does not after the write. *)
Definition open_append (fs : filesystem) (p : string) (s : string)
  : result filesystem :=
  match fs !! p with
  | Some Dir => Raise (IsADirectoryError p)
  | Some (File (Text old)) => Ok (<[p := File (Text (old +:+ s))]> fs)
  | Some (File _) => Ok fs
  | None => open_write fs p (Text s)
  end.

(** [df.to_csv(p, index=False)] *)
Definition to_csv (fs : filesystem) (p : string) (df : DataFrame)
  : result filesystem :=
  open_write fs p (Csv df).

End FS.

(** ** The scenario catalogue *)

Inductive scenario_type : Type :=
| missing_dependency
| dockerfile_syntax
| env_missing
| null_values
| high_latency
| public_bucket
| memory_leak
| schema_drift.

(** The keys of [SCENARIOS], in the order of the dict. *)
Inductive scenario_key : Type :=
| Demo1 | Demo2 | Demo3 | Demo4 | Demo5 | Demo6 | Demo7 | Demo8.

#[export] Instance scenario_key_eq_dec : EqDecision scenario_key.
Proof. solve_decision. Defined.

Definition all_keys : list scenario_key :=
  [Demo1; Demo2; Demo3; Demo4; Demo5; Demo6; Demo7; Demo8].

(** The key as the string the radio button shows. *)
Definition key_name (k : scenario_key) : string :=
  match k with
  | Demo1 => "Demo 1 · Linear Regression (dep missing)"
  | Demo2 => "Demo 2 · Image Classifier (Dockerfile syntax)"
  | Demo3 => "Demo 3 · NLP Sentiment (env credentials missing)"
  | Demo4 => "Demo 4 · Fraud Detection (nulls in data)"
  | Demo5 => "Demo 5 · Recommender (high latency in profile)"
  | Demo6 => "Demo 6 · Forecasting (public bucket policy)"
  | Demo7 => "Demo 7 · Speech-to-Text (memory leak)"
  | Demo8 => "Demo 8 · Anomaly Detection (schema drift)"
  end.

Record fmea_record : Type := {
  mode : string;
  effect : string;
  cause : string;
  detection : string;
  mitigation_hint : string;
  mitigation_fix : string
}.

Record scenario : Type := {
  s_type : scenario_type;
  failure_step : Z;
  fmea : fmea_record
}.

Definition SCENARIOS (k : scenario_key) : scenario :=
  match k with
  | Demo1 =>
      {| s_type := missing_dependency; failure_step := 3;
         fmea := {| mode := "ImportError: numpy not installed";
                    effect := "Build cannot run unit tests; pipeline blocked";
                    cause := "requirements.txt lacks numpy though code imports it";
                    detection := "Dependency audit at step 3";
                    mitigation_hint := "Add `numpy` to requirements.txt";
                    mitigation_fix :=
                      "Appended `numpy` to requirements.txt and reinstalled deps" |} |}
  | Demo2 =>
      {| s_type := dockerfile_syntax; failure_step := 6;
         fmea := {| mode := "Dockerfile invalid: `COPY.` missing space";
                    effect := "Image can't be built";
                    cause := "Syntax error in Dockerfile";
                    detection := "Docker build at step 6";
                    mitigation_hint := "Replace `COPY.` with `COPY . /app`";
                    mitigation_fix := "Fixed Dockerfile COPY directive" |} |}
  | Demo3 =>
      {| s_type := env_missing; failure_step := 10;
         fmea := {| mode := "Missing DB_USER/DB_PASS/DB_HOST in .env";
                    effect := "Test environment provision fails";
                    cause := "Incomplete secrets/config";
                    detection := "Provision step 10";
                    mitigation_hint := "Populate required keys in .env";
                    mitigation_fix :=
                      "Wrote DB_USER/DB_PASS/DB_HOST to .env (placeholder values)" |} |}
  | Demo4 =>
      {| s_type := null_values; failure_step := 12;
         fmea := {| mode := "Smoke test fails due to NaNs";
                    effect := "API /predict crashes with null input";
                    cause := "Dataset contains missing values";
                    detection := "Smoke tests step 12";
                    mitigation_hint := "Impute/drop NaNs in CSV";
                    mitigation_fix := "Filled NaNs with column means" |} |}
  | Demo5 =>
      {| s_type := high_latency; failure_step := 15;
         fmea := {| mode := "p90 latency > SLO";
                    effect := "Pre-prod gate blocks release";
                    cause := "Inefficient queries / insufficient resources";
                    detection := "Load tests step 15";
                    mitigation_hint := "Tune or scale; set p90 <= 1000ms";
                    mitigation_fix :=
                      "Reduced p90 to 400ms in profile (proxy for tuning)" |} |}
  | Demo6 =>
      {| s_type := public_bucket; failure_step := 17;
         fmea := {| mode := "S3/Bucket allows public write";
                    effect := "Security approval rejects";
                    cause := "Over-permissive ACL";
                    detection := "Approval gate step 17";
                    mitigation_hint := "Block public access";
                    mitigation_fix :=
                      "Set BlockPublicAcls=True / removed public write" |} |}
  | Demo7 =>
      {| s_type := memory_leak; failure_step := 19;
         fmea := {| mode := "Growing list in inference loop";
                    effect := "Pod OOM post-deploy";
                    cause := "Objects retained across calls";
                    detection := "Monitoring step 19";
                    mitigation_hint := "Free buffers; avoid global accumulation";
                    mitigation_fix := "Disabled leak flag; cleared buffers" |} |}
  | Demo8 =>
      {| s_type := schema_drift; failure_step := 20;
         fmea := {| mode := "Column `target` missing (found `label`)";
                    effect := "CT retrain pipeline fails";
                    cause := "Upstream ETL changed schema";
                    detection := "CT step 20";
                    mitigation_hint := "Map `label` → `target` before training";
                    mitigation_fix := "Created `target` column from `label`" |} |}
  end.

(** ** Asset generation *)

Import PyStr.

(** [write(path, content)]: creates the directory of [path], then the file. *)
Definition write (fs : filesystem) (path : string) (content : artifact)
  : result filesystem :=
  fs ← FS.makedirs fs (FS.dirname path);
  FS.open_write fs path content.

(** The text [textwrap.dedent(...).strip()] leaves of the entry point. *)
Definition app_py (scenario_key : string) : string :=
  "# minimal app entrypoint for " +:+ scenario_key +:+ LF +:+
  "def predict(x): " +:+ LF +:+
  "    return x".

Definition leak_code : string :=
  LF +:+
  "buffer = []" +:+ LF +:+
  "LEAK_DEMO = True" +:+ LF +:+
  "def infer(x):" +:+ LF +:+
  "    global buffer" +:+ LF +:+
  "    if LEAK_DEMO:" +:+ LF +:+
  "        buffer.append(bytes(1024*256))  # grow 256KB per call" +:+ LF +:+
  "    return x" +:+ LF.

Definition generate_assets (fs : filesystem) (base_dir : string)
    (key : scenario_key) : result filesystem :=
  fs ← (if FS.exists_ fs base_dir then FS.rmtree fs base_dir else Ok fs);
  fs ← FS.makedirs fs base_dir;
  let sc := SCENARIOS key in
  fs ← write fs (FS.join base_dir "app.py") (Text (app_py (key_name key)));
  match s_type sc with
  | missing_dependency =>
      fs ← write fs (FS.join base_dir "model.py")
             (Text ("import numpy as np" +:+ LF +:+ LF +:+ "DEF_FLAG=1" +:+ LF));
      write fs (FS.join base_dir "requirements.txt")
        (Text ("pandas==2.2.2" +:+ LF +:+ "# numpy intentionally missing" +:+ LF))
  | dockerfile_syntax =>
      fs ← write fs (FS.join base_dir "Dockerfile")
             (Text ("FROM python:3.11-slim" +:+ LF +:+ "WORKDIR /app" +:+ LF +:+
                    "COPY." +:+ LF +:+ "RUN pip install -r requirements.txt" +:+ LF));
      write fs (FS.join base_dir "requirements.txt") (Text ("pandas==2.2.2" +:+ LF))
  | env_missing =>
      fs ← write fs (FS.join base_dir ".env")
             (Text ("DB_USER=" +:+ LF +:+ "# DB_PASS missing" +:+ LF +:+
                    "DB_HOST=" +:+ LF));
      write fs (FS.join base_dir "provision.yaml")
        (Text ("service: nlp-sentiment" +:+ LF +:+ "resources: test-db" +:+ LF))
  | null_values =>
      let df : DataFrame :=
        [("amount", NumCol [Some (100 # 1)%Q; None; Some (45 # 1)%Q; None]);
         ("merchant", ObjCol [Some "a"; Some "b"; Some "c"; Some "d"])] in
      FS.to_csv fs (FS.join base_dir "data.csv") df
  | high_latency =>
      write fs (FS.join base_dir "endpoint_profile.json")
        (Json (PyDict [("p90_ms", PyInt 1400); ("notes", PyStr "needs tuning")]))
  | public_bucket =>
      let policy :=
        PyDict [("bucket", PyStr "my-forecast-bucket"); ("public_write", PyBool true)] in
      write fs (FS.join base_dir "iac.yaml") (Yaml policy)
  | memory_leak =>
      write fs (FS.join base_dir "model.py") (Text leak_code)
  | schema_drift =>
      let df : DataFrame :=
        [("feature1", NumCol [Some (1 # 1)%Q; Some (2 # 1)%Q; Some (3 # 1)%Q]);
         ("feature2", NumCol [Some (1 # 10)%Q; Some (2 # 10)%Q; Some (3 # 10)%Q]);
         ("label", NumCol [Some (0 # 1)%Q; Some (1 # 1)%Q; Some (0 # 1)%Q])] in
      FS.to_csv fs (FS.join base_dir "training.csv") df
  end.

(** ** The truth check *)

(** ["KEY=" in env and len(env.split("KEY=")[1].strip()) > 0] *)
Definition has_key (key env : string) : result bool :=
  if contains key env
  then match item1 (split key env) with
       | Some rest => Ok (nonempty (strip rest))
       | None => Raise IndexError
       end
  else Ok false.

(** The body of the [try] block, entered when [step_idx >= fail_step]. *)
Definition check_step_body (fs : filesystem) (base_dir : string)
    (key : scenario_key) (step_idx : Z) : result (bool * string) :=
  let sc := SCENARIOS key in
  if negb (step_idx =? failure_step sc) then Ok (true, "OK")
  else
    match s_type sc with
    | missing_dependency =>
        req ← FS.read_text fs (FS.join base_dir "requirements.txt");
        code ← FS.read_text fs (FS.join base_dir "model.py");
        let imports_numpy := contains "numpy" code in
        let declared_numpy := contains "numpy" req in
        Ok (declared_numpy || negb imports_numpy,
            if declared_numpy then "numpy present" else "numpy missing")
    | dockerfile_syntax =>
        content ← FS.read_text fs (FS.join base_dir "Dockerfile");
        let invalid := contains "COPY." content in
        Ok (negb invalid,
            if negb invalid then "Dockerfile COPY valid" else "Invalid COPY directive")
    | env_missing =>
        env ← FS.read_text fs (FS.join base_dir ".env");
        has_user ← has_key "DB_USER=" env;
        has_pass ← has_key "DB_PASS=" env;
        has_host ← has_key "DB_HOST=" env;
        let ok := has_user && has_pass && has_host in
        Ok (ok, if ok then "env ok" else "env keys missing")
    | null_values =>
        df ← FS.read_csv fs (FS.join base_dir "data.csv");
        let ok := negb (Frame.isna_any df) in
        Ok (ok, if ok then "no NaNs" else "NaNs present")
    | high_latency =>
        prof ← FS.read_json fs (FS.join base_dir "endpoint_profile.json");
        match prof with
        | PyDict d =>
            (* prof.get("p90_ms", 9999) <= 1000, then str(prof.get("p90_ms")) *)
            match PyVal.dict_get "p90_ms" d with
            | None => Ok (9999 <=? 1000, "p90=Nonems")
            | Some (PyInt n) => Ok (n <=? 1000, "p90=" +:+ pretty n +:+ "ms")
            | Some (PyBool b) =>
                Ok (Z.b2z b <=? 1000,
                    "p90=" +:+ (if b then "True" else "False") +:+ "ms")
            | Some v => Raise (TypeError (PyVal.no_le_int v))
            end
        | v => Raise (AttributeError (PyVal.no_get v))
        end
    | public_bucket =>
        policy ← FS.read_yaml fs (FS.join base_dir "iac.yaml");
        match policy with
        | PyDict d =>
            let public_write :=
              PyVal.truthy (default (PyBool false) (PyVal.dict_get "public_write" d)) in
            Ok (negb public_write,
                if negb public_write then "public_write=false" else "public_write=true")
        | v => Raise (AttributeError (PyVal.no_get v))
        end
    | memory_leak =>
        code ← FS.read_text fs (FS.join base_dir "model.py");
        let leaking := contains "LEAK_DEMO = True" code in
        Ok (negb leaking, if negb leaking then "no leak" else "leak flag true")
    | schema_drift =>
        df ← FS.read_csv fs (FS.join base_dir "training.csv");
        let ok := Frame.has_column "target" df in
        Ok (ok, if ok then "target present" else "target missing")
    end.

Definition check_step_truth (fs : filesystem) (base_dir : string)
    (key : scenario_key) (step_idx : Z) : bool * string :=
  let sc := SCENARIOS key in
  if step_idx <? failure_step sc then (true, "OK")
  else
    match check_step_body fs base_dir key step_idx with
    | Ok verdict => verdict
    | Raise e => (false, "check error: " +:+ str_exn e)
    end.

(** ** The mitigation *)

(** The imputation of one column of [data.csv]: a numeric column takes
    its mean, another one [fillna(method="ffill").fillna(method="bfill")],
    which raises when the installed pandas has no such keyword. *)
Definition impute {pd : Pandas} (c : column) : result column :=
  match c with
  | NumCol cells => Ok (NumCol (Frame.fillna (Frame.mean cells) cells))
  | ObjCol cells =>
      match fillna_method_error with
      | None => Ok (ObjCol (Frame.bfill (Frame.ffill cells)))
      | Some msg => Raise (TypeError msg)
      end
  end.

(** [for col in df.columns: df[col] = ...]: the columns in turn, up to
    the first that raises. *)
Fixpoint impute_frame {pd : Pandas} (df : DataFrame) : result DataFrame :=
  match df with
  | [] => Ok []
  | (name, c) :: rest =>
      c' ← impute c;
      rest' ← impute_frame rest;
      Ok ((name, c') :: rest')
  end.

(** The body of the [try] block: the file system after the repair. *)
Definition apply_mitigation_body {pd : Pandas} (fs : filesystem)
    (base_dir : string) (key : scenario_key) : result filesystem :=
  let sc := SCENARIOS key in
  match s_type sc with
  | missing_dependency =>
      let path := FS.join base_dir "requirements.txt" in
      FS.open_append fs path (LF +:+ "numpy==1.26.4" +:+ LF)
  | dockerfile_syntax =>
      let p := FS.join base_dir "Dockerfile" in
      txt ← FS.read_text fs p;
      write fs p (Text (replace "COPY." ("COPY . /app" +:+ LF) txt))
  | env_missing =>
      let p := FS.join base_dir ".env" in
      write fs p (Text ("DB_USER=demo" +:+ LF +:+ "DB_PASS=demo123" +:+ LF +:+
                        "DB_HOST=localhost" +:+ LF))
  | null_values =>
      let p := FS.join base_dir "data.csv" in
      df ← FS.read_csv fs p;
      df ← impute_frame df;
      FS.to_csv fs p df
  | high_latency =>
      let p := FS.join base_dir "endpoint_profile.json" in
      prof ← FS.read_json fs p;
      match prof with
      | PyDict d => write fs p (Json (PyDict (PyVal.dict_set "p90_ms" (PyInt 400) d)))
      | v => Raise (TypeError (PyVal.no_setitem v))
      end
  | public_bucket =>
      let p := FS.join base_dir "iac.yaml" in
      policy ← FS.read_yaml fs p;
      match policy with
      | PyDict d =>
          write fs p (Yaml (PyDict (PyVal.dict_set "public_write" (PyBool false) d)))
      | v => Raise (TypeError (PyVal.no_setitem v))
      end
  | memory_leak =>
      let p := FS.join base_dir "model.py" in
      txt ← FS.read_text fs p;
      write fs p (Text (replace "LEAK_DEMO = True"
                          ("LEAK_DEMO = False" +:+ LF +:+ "# fixed") txt))
  | schema_drift =>
      let p := FS.join base_dir "training.csv" in
      df ← FS.read_csv fs p;
      let df :=
        if Frame.has_column "label" df && negb (Frame.has_column "target" df)
        then match Frame.get_column "label" df with
             | Some label => Frame.set_column "target" label df
             | None => df
             end
        else if negb (Frame.has_column "target" df)
        then Frame.set_column "target"
               (NumCol (replicate (Frame.nrows df) (Some (0 # 1)%Q))) df
        else df in
      FS.to_csv fs p df
  end.

(** [apply_mitigation]: the file system it leaves, and [(ok, msg)]. *)
Definition apply_mitigation {pd : Pandas} (fs : filesystem)
    (base_dir : string) (key : scenario_key) : filesystem * (bool * string) :=
  let sc := SCENARIOS key in
  match apply_mitigation_body fs base_dir key with
  | Ok fs' => (fs', (true, mitigation_fix (fmea sc)))
  | Raise e => (fs, (false, "mitigation error: " +:+ str_exn e))
  end.

(** ** Session state and display tables *)

Inductive provider : Type := AWS | GCP | Azure.

Definition CLOUD_MAP (c : provider) : gmap Z string :=
  list_to_map
    match c with
    | AWS =>
        [(1, "GitHub/CodeCommit"); (2, "CodeBuild (static)"); (3, "CodeBuild (deps)");
         (4, "PyTest in CodeBuild"); (5, "CodeBuild (integration)");
         (6, "Docker build (CodeBuild)"); (7, "ECR push");
         (8, "CloudFormation/Terraform validate"); (9, "Inspector/CodeGuru Security");
         (10, "Provision test env (CloudFormation)"); (11, "Deploy to test (ECS/EKS)");
         (12, "Smoke tests (Canaries)"); (13, "Deploy staging (ECS/EKS)");
         (14, "Load test (CloudWatch Synthetics)"); (15, "Pre-prod deploy");
         (16, "UAT (AppConfig feature flags)"); (17, "Approval (CodePipeline Manual)");
         (18, "Prod deploy (Blue/Green)"); (19, "Monitoring (CloudWatch/Prometheus)");
         (20, "CT retrain (SageMaker Pipelines)")]
    | GCP =>
        [(1, "GitHub/Cloud Source Repos"); (2, "Cloud Build (static)");
         (3, "Cloud Build (deps)"); (4, "PyTest in Cloud Build");
         (5, "Cloud Build (integration)"); (6, "Docker build (Cloud Build)");
         (7, "Artifact Registry push"); (8, "Terraform/DM validate");
         (9, "Security Command Center"); (10, "Provision test env (Terraform)");
         (11, "Deploy to test (GKE)"); (12, "Smoke tests (Cloud Run Jobs)");
         (13, "Deploy staging (GKE)"); (14, "Load test (Cloud Monitoring SLOs)");
         (15, "Pre-prod deploy"); (16, "UAT (Launch Config)");
         (17, "Approval (Cloud Deploy)"); (18, "Prod deploy (Blue/Green)");
         (19, "Monitoring (Cloud Monitoring)"); (20, "CT retrain (Vertex AI Pipelines)")]
    | Azure =>
        [(1, "GitHub/Azure Repos"); (2, "Azure Pipelines (static)");
         (3, "Pipelines (deps)"); (4, "PyTest in Pipelines");
         (5, "Pipelines (integration)"); (6, "Docker build (Pipelines)");
         (7, "ACR push"); (8, "ARM/Bicep/Terraform validate");
         (9, "Defender for Cloud"); (10, "Provision test env (Bicep/Terraform)");
         (11, "Deploy to test (AKS)"); (12, "Smoke tests (Playwright/Func Tests)");
         (13, "Deploy staging (AKS)"); (14, "Load test (Azure Load Testing)");
         (15, "Pre-prod deploy"); (16, "UAT (Feature Management)");
         (17, "Approval (Environments)"); (18, "Prod deploy (Blue/Green)");
         (19, "Monitoring (Azure Monitor)"); (20, "CT retrain (ML Pipelines)")]
    end.

Definition STEPS : list string :=
  ["Code Commit"; "Static Code Analysis"; "Dependency Check"; "Unit Tests";
   "Integration Tests"; "Build Docker Image"; "Push to Container Registry";
   "IaC Validation"; "Security Scan"; "Provision Test Environment";
   "Deploy to Test"; "Smoke Tests"; "Deploy to Staging"; "Load Tests";
   "Deploy to Pre-Prod"; "User Acceptance Testing"; "Approval Gate";
   "Deploy to Production"; "Post-Deploy Monitoring";
   "Feedback Loop & Continuous Training"].

(** [st.session_state] *)
Record session : Type := {
  cloud : provider;
  demo_key : option scenario_key;
  assets_dir : option string;
  debug_attempts : Z;
  last_run_logs : list string;
  last_failure : option (Z * string);
  pipeline_completed : bool;
  running : bool
}.

(** [init_state] on a fresh session. *)
Definition init_state : session :=
  {| cloud := AWS; demo_key := None; assets_dir := None; debug_attempts := 0;
     last_run_logs := []; last_failure := None; pipeline_completed := false;
     running := false |}.

Definition set_selection (c : provider) (k : scenario_key) (dir : string)
    (ss : session) : session :=
  {| cloud := c; demo_key := Some k; assets_dir := Some dir;
     debug_attempts := debug_attempts ss; last_run_logs := last_run_logs ss;
     last_failure := last_failure ss; pipeline_completed := pipeline_completed ss;
     running := running ss |}.

Definition set_debug_attempts (n : Z) (ss : session) : session :=
  {| cloud := cloud ss; demo_key := demo_key ss; assets_dir := assets_dir ss;
     debug_attempts := n; last_run_logs := last_run_logs ss;
     last_failure := last_failure ss; pipeline_completed := pipeline_completed ss;
     running := running ss |}.

Definition set_last_run_logs (logs : list string) (ss : session) : session :=
  {| cloud := cloud ss; demo_key := demo_key ss; assets_dir := assets_dir ss;
     debug_attempts := debug_attempts ss; last_run_logs := logs;
     last_failure := last_failure ss; pipeline_completed := pipeline_completed ss;
     running := running ss |}.

Definition set_last_failure (f : option (Z * string)) (ss : session) : session :=
  {| cloud := cloud ss; demo_key := demo_key ss; assets_dir := assets_dir ss;
     debug_attempts := debug_attempts ss; last_run_logs := last_run_logs ss;
     last_failure := f; pipeline_completed := pipeline_completed ss;
     running := running ss |}.

Definition set_pipeline_completed (b : bool) (ss : session) : session :=
  {| cloud := cloud ss; demo_key := demo_key ss; assets_dir := assets_dir ss;
     debug_attempts := debug_attempts ss; last_run_logs := last_run_logs ss;
     last_failure := last_failure ss; pipeline_completed := b;
     running := running ss |}.

Definition set_running (b : bool) (ss : session) : session :=
  {| cloud := cloud ss; demo_key := demo_key ss; assets_dir := assets_dir ss;
     debug_attempts := debug_attempts ss; last_run_logs := last_run_logs ss;
     last_failure := last_failure ss; pipeline_completed := pipeline_completed ss;
     running := b |}.

(** What the script shows; only the calls whose text depends on the state
    or on the inputs are recorded. *)
Inductive ui : Type :=
| Markdown (text : string)
| Warning (text : string)
| Error (text : string)
| Success (text : string)
| Info (text : string).

(** ** The script *)

(** [os.path.join("/tmp", "ci_ct_cd_sim",
                  demo_key.replace(" ", "_").replace("·", "_"))] *)
Definition assets_dir_of (k : scenario_key) : string :=
  FS.join (FS.join "/tmp" "ci_ct_cd_sim")
    (replace "·" "_" (replace " " "_" (key_name k))).

(** The state of the script between the button handler and the run. *)
Record fix_result : Type := {
  fix_session : session;
  fix_fs : filesystem;
  fix_run_btn : bool;
  fix_ui : list ui;
  (** ghost: the calls of [apply_mitigation], with what each returned *)
  fix_calls : list (bool * string)
}.

(** [if fix_btn: ...] *)
Definition handle_fix {pd : Pandas} (fix_btn run_btn : bool) (ss : session)
    (fs : filesystem) (assets_dir : string) (key : scenario_key) : fix_result :=
  let unchanged msgs :=
    {| fix_session := ss; fix_fs := fs; fix_run_btn := run_btn; fix_ui := msgs;
       fix_calls := [] |} in
  if negb fix_btn then unchanged []
  else
    match last_failure ss with
    | None => unchanged [Warning "No failure detected yet. Run the pipeline first."]
    | Some _ =>
        if 2 <=? debug_attempts ss
        then unchanged
               [Error "Debug attempts exhausted (max 2). Reset by choosing another demo."]
        else
          let '(fs', (ok, msg)) := apply_mitigation fs assets_dir key in
          if ok
          then
            let ss' := set_debug_attempts (debug_attempts ss + 1) ss in
            {| fix_session := ss'; fix_fs := fs'; fix_run_btn := true;
               fix_ui := [Success ("Mitigation applied: " +:+ msg +:+
                                   "  • Attempts used: " +:+
                                   pretty (debug_attempts ss') +:+ "/2")];
               fix_calls := [(ok, msg)] |}
          else
            {| fix_session := ss; fix_fs := fs'; fix_run_btn := run_btn;
               fix_ui := [Error msg]; fix_calls := [(ok, msg)] |}
    end.

(** [f"{idx:02d}"] *)
Definition fmt02 (idx : Z) : string :=
  if (0 <=? idx) && (idx <? 10) then "0" +:+ pretty idx else pretty idx.

(** [enumerate(xs, start=i)] *)
Fixpoint enumerate {A} (i : Z) (xs : list A) : list (Z * A) :=
  match xs with
  | [] => []
  | x :: xs' => (i, x) :: enumerate (i + 1) xs'
  end.

(** The step loop: it stops at the first failing step ([break]). *)
Fixpoint run_steps (steps : list (Z * string)) (fs : filesystem)
    (assets_dir : string) (key : scenario_key) (ss : session)
  : session * list ui :=
  match steps with
  | [] => (ss, [])
  | (idx, step) :: rest =>
      let cloud_service := default "" (CLOUD_MAP (cloud ss) !! idx) in
      let header :=
        "Step " +:+ fmt02 idx +:+ " · " +:+ step +:+ "  —  <span class='small'>" +:+
        cloud_service +:+ "</span>" in
      let card := Markdown ("<div class='stepcard'><b>" +:+ header +:+ "</b>") in
      let '(ok, detail) := check_step_truth fs assets_dir key idx in
      if ok
      then
        let msg := "✅ " +:+ step +:+ ": OK (" +:+ detail +:+ ")" in
        let ss := set_last_run_logs (last_run_logs ss ++ [msg])%list ss in
        let '(ss, shown) := run_steps rest fs assets_dir key ss in
        (ss, card :: Markdown msg :: shown)
      else
        let f := fmea (SCENARIOS key) in
        let failed :=
          Markdown ("**<span class='err'>❌ FAILED</span> — " +:+ detail +:+ "**") in
        let analysis :=
          Error ("FMEA • Failure Mode: " +:+ mode f +:+ LF +:+ LF +:+
                 "Effect: " +:+ effect f +:+ LF +:+ LF +:+
                 "Likely Cause: " +:+ cause f +:+ LF +:+ LF +:+
                 "Detection Point: " +:+ detection f) in
        let advice :=
          if debug_attempts ss <? 2
          then Warning ("Mitigation Suggestion: " +:+ mitigation_hint f +:+
                        "  → Click **Apply Fix & Retry** (Attempts used: " +:+
                        pretty (debug_attempts ss) +:+ "/2)")
          else Info ("Max debug attempts used. Final Suggested Fix: " +:+
                     mitigation_fix f +:+ "  • Switch demo to reset attempts.") in
        let fail_line := "❌ " +:+ step +:+ ": " +:+ detail in
        let ss := set_last_run_logs (last_run_logs ss ++ [fail_line])%list ss in
        let ss := set_last_failure (Some (idx, detail)) ss in
        let ss := set_running false ss in
        (ss, [card; failed; analysis; advice])
  end.

(** [if run_btn: ...] *)
Definition run_pipeline (fs : filesystem) (assets_dir : string)
    (key : scenario_key) (ss : session) : session * list ui :=
  let ss := set_running true ss in
  let ss := set_last_run_logs [] ss in
  let ss := set_pipeline_completed false ss in
  let ss := set_last_failure None ss in
  let '(ss, shown) := run_steps (enumerate 1 STEPS) fs assets_dir key ss in
  match last_failure ss with
  | None =>
      (set_running false (set_pipeline_completed true ss),
       (shown ++ [Success "🎉 Pipeline completed successfully end-to-end!"])%list)
  | Some _ => (ss, shown)
  end.

(** The widgets of one run of the script. *)
Record widgets : Type := {
  w_cloud : provider;
  w_demo : scenario_key;
  w_run : bool;
  w_fix : bool
}.

(** What one run of the script leaves. [out_crash] is the exception that
    ended it, if one did; the file system is then the one
    [generate_assets] was called on. *)
Record outcome : Type := {
  out_session : session;
  out_fs : filesystem;
  out_ui : list ui;
  out_calls : list (bool * string);
  out_generated : bool;
  out_crash : option exn
}.

(** One run of the script, top to bottom. *)
Definition script {pd : Pandas} (w : widgets) (ss : session) (fs : filesystem)
  : outcome :=
  let demo_key := w_demo w in
  let assets_dir := assets_dir_of demo_key in
  let ss := set_selection (w_cloud w) demo_key assets_dir ss in
  let r := handle_fix (w_fix w) (w_run w) ss fs assets_dir demo_key in
  let ss := fix_session r in
  let fs := fix_fs r in
  let run_btn := fix_run_btn r in
  let regenerate :=
    negb (FS.exists_ fs assets_dir) ||
    match last_run_logs ss with [] => true | _ => false end ||
    run_btn in
  match (if regenerate then generate_assets fs assets_dir demo_key else Ok fs) with
  | Raise e =>
      {| out_session := ss; out_fs := fs; out_ui := fix_ui r;
         out_calls := fix_calls r; out_generated := regenerate;
         out_crash := Some e |}
  | Ok fs =>
      let '(ss, shown) :=
        if run_btn then run_pipeline fs assets_dir demo_key ss else (ss, []) in
      {| out_session := ss; out_fs := fs; out_ui := (fix_ui r ++ shown)%list;
         out_calls := fix_calls r; out_generated := regenerate;
         out_crash := None |}
  end.

(** A sequence of runs of the script, one per user action. A run that an
    exception ends leaves the session as it was at that point, and the
    next action runs the script again on it. The result is the last
    session and file system, with the first exception that ended a run,
    if one did. *)
Fixpoint interact {pd : Pandas} (ws : list widgets) (ss : session)
    (fs : filesystem) : session * filesystem * option exn :=
  match ws with
  | [] => (ss, fs, None)
  | w :: ws' =>
      let o := script w ss fs in
      let '(ss', fs', later) := interact ws' (out_session o) (out_fs o) in
      (ss', fs', match out_crash o with Some e => Some e | None => later end)
  end.

(** * Vocabulary of the properties *)

(** A pandas to run the model on. Its mean is the exact one, which is
    what float arithmetic gives on the examples it is used for: their
    sums and means are binary fractions of a few digits. [err] is the
    message of the TypeError [fillna(method=...)] raises, [None] for a
    pandas that still takes the keyword. *)
Definition exact_mean (vals : list Q) : option Q :=
  Some (Qred (Qdiv (foldr Qplus (0 # 1)%Q vals)
                   (inject_Z (Z.of_nat (length vals))))).

Definition exact_pandas (err : option string) : Pandas :=
  {| fillna_method_error := err;
     float_mean := exact_mean;
     float_mean_small := λ vals _ _ _, ex_intro _ _ eq_refl |}.

(** The two kinds of release: before pandas 3.0, and from it on. *)
Definition pandas_2 : Pandas := exact_pandas None.

Definition pandas_3 : Pandas :=
  exact_pandas (Some "NDFrame.fillna() got an unexpected keyword argument 'method'").

(** The files of the assets directory a scenario's check and mitigation
    open. *)
Definition artifact_names (t : scenario_type) : list string :=
  match t with
  | missing_dependency => ["requirements.txt"; "model.py"]
  | dockerfile_syntax => ["Dockerfile"]
  | env_missing => [".env"]
  | null_values => ["data.csv"]
  | high_latency => ["endpoint_profile.json"]
  | public_bucket => ["iac.yaml"]
  | memory_leak => ["model.py"]
  | schema_drift => ["training.csv"]
  end.

(** What a run of the pipeline leaves for the next run of the script. *)
Definition run_record (ss : session)
  : list string * option (Z * string) * bool * bool :=
  (last_run_logs ss, last_failure ss, pipeline_completed ss, running ss).

(** The pass flag of a verdict. *)
Definition passed (verdict : bool * string) : bool := verdict.1.

(** Runs of the script on concrete sessions. *)

Definition press_run (c : provider) (k : scenario_key) : widgets :=
  {| w_cloud := c; w_demo := k; w_run := true; w_fix := false |}.

Definition press_fix (c : provider) (k : scenario_key) : widgets :=
  {| w_cloud := c; w_demo := k; w_run := false; w_fix := true |}.

Definition select (c : provider) (k : scenario_key) : widgets :=
  {| w_cloud := c; w_demo := k; w_run := false; w_fix := false |}.

(** The baseline of a scenario: its assets generated on an empty disk. *)
Definition baseline (k : scenario_key) : result filesystem :=
  generate_assets ∅ (assets_dir_of k) k.

(** The verdict on the baseline of a scenario at its failing step. *)
Definition baseline_verdict (k : scenario_key) : result (bool * string) :=
  fs ← baseline k;
  Ok (check_step_truth fs (assets_dir_of k) k (failure_step (SCENARIOS k))).

(** The env check in the spec's reading. *)

Module Spec.

(** The value a [.env] text gives a key: that of its last line
    [KEY=value]. *)
Definition env_value (key env : string) : option string :=
  last (omap (λ line,
                if String.prefix (key +:+ "=") line
                then Some (String.substring (String.length key + 1)
                             (String.length line) line)
                else None)
             (split LF env)).

(** Follows the spec's words: "all three required keys are present AND
    non-empty". *)
Definition env_complete (env : string) : bool :=
  forallb (λ key, match env_value key env with
                  | Some v => nonempty (strip v)
                  | None => false
                  end)
          ["DB_USER"; "DB_PASS"; "DB_HOST"].

End Spec.

Definition slash_free (name : string) : Prop := FS.before_last_slash name = None.

(** An absolute path in normal form, as the program's are: [/c1/.../cn]
    with at least one component, none of them empty, [.] or [..]. *)
Definition normal_path (p : string) : bool :=
  match split "/" p with
  | "" :: c :: cs =>
      forallb (λ c, nonempty c && negb (String.eqb c ".") && negb (String.eqb c ".."))
              (c :: cs)
  | _ => false
  end.


(** Every directory on the way to [base] is there, [base] included. *)
Definition dir_ok (fs : filesystem) (base : string) : Prop :=
  ∀ q, q ∈ (FS.ancestors base ++ [base])%list → fs !! q = Some Dir.

(** Two assets directories hold the same files under the names [names]. *)
Definition same_on (names : list string) (fs1 : filesystem) (b1 : string)
    (fs2 : filesystem) (b2 : string) : Prop :=
  ∀ n, n ∈ names → fs1 !! FS.join b1 n = fs2 !! FS.join b2 n.

Definition view (names : list string) (b1 b2 : string)
    (fs1 fs2 : filesystem) : Prop :=
  dir_ok fs1 b1 ∧ dir_ok fs2 b2 ∧ same_on names fs1 b1 fs2 b2.

(** Two computations fail together, or succeed with related results. *)
Definition rel_res {A B} (R : A → B → Prop) (m1 : result A) (m2 : result B) : Prop :=
  match m1, m2 with
  | Ok a, Ok b => R a b
  | Raise _, Raise _ => True
  | _, _ => False
  end.


(** The log line of a step that passed, and of the step that failed. *)
Definition ok_line (step detail : string) : string :=
  "✅ " +:+ step +:+ ": OK (" +:+ detail +:+ ")".

Definition fail_line (step detail : string) : string :=
  "❌ " +:+ step +:+ ": " +:+ detail.

(** The log of a run whose check at the failing step [f] returned
    [verdict]: the steps before [f] pass, step [f] passes or fails with the
    verdict, and the steps after it pass when it did. Steps are numbered
    from [i]. *)
Definition expected_logs (f i : Z) (steps : list string)
    (verdict : bool * string) : list string :=
  if (i <=? f) && (f <? i + Z.of_nat (length steps))
  then
    let n := Z.to_nat (f - i) in
    ((λ s, ok_line s "OK") <$> take n steps) ++
    match steps !! n with
    | Some s =>
        if verdict.1
        then ok_line s verdict.2 :: ((λ s, ok_line s "OK") <$> drop (S n) steps)
        else [fail_line s verdict.2]
    | None => []
    end
  else (λ s, ok_line s "OK") <$> steps.

(** The files [generate_assets] writes for a scenario. *)
Definition written_names (t : scenario_type) : list string :=
  "app.py" ::
  match t with
  | missing_dependency => ["model.py"; "requirements.txt"]
  | dockerfile_syntax => ["Dockerfile"; "requirements.txt"]
  | env_missing => [".env"; "provision.yaml"]
  | null_values => ["data.csv"]
  | high_latency => ["endpoint_profile.json"]
  | public_bucket => ["iac.yaml"]
  | memory_leak => ["model.py"]
  | schema_drift => ["training.csv"]
  end.

(** Nothing lies below the directory [base]. *)
Definition empty_below (fs : filesystem) (base : string) : Prop :=
  ∀ q, FS.below base q = true → fs !! q = None.

(** A file system keeps no entry below a directory that is not there. *)
Definition no_orphans (fs : filesystem) (base : string) : Prop :=
  fs !! base = None → empty_below fs base.


(** The pass flag of the check on assets just generated: the generated
    [requirements.txt] of the missing-dependency scenario mentions numpy in
    a comment, which the substring test accepts. *)
Definition fresh_pass_flag (t : scenario_type) : bool :=
  match t with
  | missing_dependency => true
  | _ => false
  end.

(** The character [h] does not occur in [s]. *)
Fixpoint no_char (h : Ascii.ascii) (s : string) : bool :=
  match s with
  | "" => true
  | String c s' => negb (Ascii.eqb h c) && no_char h s'
  end.

(** A column the imputation cannot fill: a numeric column with a gap
    whose mean is NaN, as when it holds no value, or a column of dtype
    object with rows and no value in them. *)
Definition col_unfillable {pd : Pandas} (c : column) : bool :=
  match c with
  | NumCol cells => existsb Frame.is_none cells && Frame.is_none (Frame.mean cells)
  | ObjCol cells => forallb Frame.is_none cells && negb (Nat.eqb (length cells) 0)
  end.

(** The assets a mitigation can repair. The dependency check reads two
    files, of which the mitigation touches one: both must read as text.
    The imputation needs a fill value for every column with a gap. *)
Definition repairable {pd : Pandas} (fs : filesystem) (base : string)
    (key : scenario_key) : Prop :=
  match s_type (SCENARIOS key) with
  | missing_dependency =>
      raises (check_step_body fs base key (failure_step (SCENARIOS key))) = false
  | null_values =>
      ∀ df, fs !! FS.join base "data.csv" = Some (File (Csv df)) →
            existsb (λ nc, col_unfillable nc.2) df = false
  | _ => True
  end.

(** The one file of the assets directory a mitigation writes. *)
Definition repaired_name (t : scenario_type) : string :=
  match t with
  | missing_dependency => "requirements.txt"
  | dockerfile_syntax => "Dockerfile"
  | env_missing => ".env"
  | null_values => "data.csv"
  | high_latency => "endpoint_profile.json"
  | public_bucket => "iac.yaml"
  | memory_leak => "model.py"
  | schema_drift => "training.csv"
  end.

(** The sessions the script can leave: the attempt count is between 0 and
    2, the running flag is down, and the run record is that of no run yet,
    of a completed run, or of a run stopped at the failing step of some
    scenario. *)
Definition consistent (ss : session) : Prop :=
  0 <= debug_attempts ss <= 2 ∧
  running ss = false ∧
  ((last_run_logs ss = [] ∧ last_failure ss = None ∧ pipeline_completed ss = false) ∨
   (length (last_run_logs ss) = 20%nat ∧ last_failure ss = None ∧
    pipeline_completed ss = true) ∨
   (∃ key detail,
      last_failure ss = Some (failure_step (SCENARIOS key), detail) ∧
      pipeline_completed ss = false ∧
      length (last_run_logs ss) = Z.to_nat (failure_step (SCENARIOS key)))).

(** The last value before row [i] of a column, and the first one after
    it. *)
Definition prev_value {A} (cells : list (option A)) (i : nat) : option A :=
  last (omap id (take i cells)).

Definition next_value {A} (cells : list (option A)) (i : nat) : option A :=
  head (omap id (drop (S i) cells)).


(** * Properties *)

(** ** Steps other than the failing one *)

Lemma check_before_fail_step fs base key idx :
  idx < failure_step (SCENARIOS key) →
  check_step_truth fs base key idx = (true, "OK").
Proof.
  intros Hlt. unfold check_step_truth.
  destruct (Z.ltb_spec idx (failure_step (SCENARIOS key))); [done | lia].
Qed.

Lemma check_after_fail_step fs base key idx :
  failure_step (SCENARIOS key) < idx →
  check_step_truth fs base key idx = (true, "OK").
Proof.
  intros Hgt. unfold check_step_truth, check_step_body.
  destruct (Z.ltb_spec idx (failure_step (SCENARIOS key))); [lia |].
  destruct (Z.eqb_spec idx (failure_step (SCENARIOS key))); [lia | done].
Qed.

Lemma check_step_truth_other fs base key idx :
  idx ≠ failure_step (SCENARIOS key) →
  check_step_truth fs base key idx = (true, "OK").
Proof.
  intros Hne.
  destruct (Z.lt_trichotomy idx (failure_step (SCENARIOS key))) as [H | [H | H]];
    [by apply check_before_fail_step | done | by apply check_after_fail_step].
Qed.

(** C6: at every step index other than the scenario's failing step, before
    it or after it, the check returns [(True, "OK")] whatever the file
    system holds. *)
Theorem check_step_truth_other_step (fs : filesystem) (base : string)
    (key : scenario_key) (idx : Z) :
  idx ≠ failure_step (SCENARIOS key) →
  check_step_truth fs base key idx = (true, "OK").
Proof. apply check_step_truth_other. Qed.

Lemma check_step_truth_other_step_witness :
  check_step_truth ∅ "/nowhere" Demo3 9 = (true, "OK") ∧
  check_step_truth ∅ "/nowhere" Demo3 11 = (true, "OK").
Proof.
  split; apply check_step_truth_other_step; simpl; lia.
Defined.

(** ** The latency profile without a [p90_ms] key *)

(** C10: in the high-latency scenario, a profile that is a JSON object with
    no [p90_ms] key fails the check at the failing step: the default 9999
    is compared with the threshold 1000, and the detail shows [None]. *)
Theorem check_high_latency_missing_p90 (fs : filesystem) (base : string)
    (key : scenario_key) (d : list (string * pyval)) :
  s_type (SCENARIOS key) = high_latency →
  fs !! FS.join base "endpoint_profile.json" = Some (File (Json (PyDict d))) →
  PyVal.dict_get "p90_ms" d = None →
  check_step_truth fs base key (failure_step (SCENARIOS key)) =
    (false, "p90=Nonems").
Proof.
  intros Hty Hfile Hkey.
  unfold check_step_truth, check_step_body.
  rewrite Z.ltb_irrefl, Z.eqb_refl, Hty. cbn [negb].
  unfold FS.read_json, FS.open_read. rewrite Hfile. cbn [mbind result_bind].
  by rewrite Hkey.
Qed.

Lemma check_high_latency_missing_p90_witness :
  check_step_truth
    {[ FS.join "/d" "endpoint_profile.json" :=
         File (Json (PyDict [("notes", PyStr "needs tuning")])) ]}
    "/d" Demo5 15 = (false, "p90=Nonems").
Proof.
  apply (check_high_latency_missing_p90 _ "/d" Demo5 [("notes", PyStr "needs tuning")]);
    reflexivity.
Defined.

(** ** The fix button *)

(** C5: the handler of the fix button calls [apply_mitigation] exactly when
    the button was pressed, a failure is recorded and fewer than 2 attempts
    were used. When it does not call it, the session, the file system and
    the run flag are left as they were. When it calls it, the file system
    is the one the mitigation leaves, and the attempt count goes up by one
    if the mitigation reported success and stays otherwise. *)
Theorem handle_fix_guard {pd : Pandas} (fix_btn run_btn : bool) (ss : session)
    (fs : filesystem) (dir : string) (key : scenario_key) :
  let r := handle_fix fix_btn run_btn ss fs dir key in
  let m := apply_mitigation fs dir key in
  (fix_calls r ≠ [] ↔
     fix_btn = true ∧ last_failure ss ≠ None ∧ debug_attempts ss < 2) ∧
  (fix_calls r = [] →
     fix_session r = ss ∧ fix_fs r = fs ∧ fix_run_btn r = run_btn) ∧
  (fix_calls r ≠ [] →
     fix_calls r = [m.2] ∧ fix_fs r = m.1 ∧
     debug_attempts (fix_session r) =
       debug_attempts ss + (if m.2.1 then 1 else 0)).
Proof.
  cbv zeta. unfold handle_fix.
  destruct fix_btn; cbn [negb fix_calls fix_session fix_fs fix_run_btn].
  2: { split_and!; [split; [done | by intros [? _]] | done | done]. }
  destruct (last_failure ss) as [f |];
    cbn [fix_calls fix_session fix_fs fix_run_btn].
  2: { split_and!; [split; [done | by intros (_ & ? & _)] | done | done]. }
  destruct (Z.leb_spec 2 (debug_attempts ss));
    cbn [fix_calls fix_session fix_fs fix_run_btn].
  { split_and!; [split; [done | intros (_ & _ & ?); lia] | done | done]. }
  destruct (apply_mitigation fs dir key) as [fs' [[] msg]];
    cbn [fix_calls fix_session fix_fs fix_run_btn set_debug_attempts
         debug_attempts fst snd];
    (split_and!; [split; [intros _; split_and!; [done | done | lia] | done]
                 | done | intros _; split_and!; [done | done | lia]]).
Qed.

Lemma handle_fix_attempts {pd : Pandas} fix_btn run_btn ss fs dir key :
  debug_attempts ss <= 2 →
  debug_attempts ss <=
    debug_attempts (fix_session (handle_fix fix_btn run_btn ss fs dir key)) <= 2.
Proof.
  intros Hle. unfold handle_fix.
  destruct fix_btn; cbn [negb fix_session]; [| lia].
  destruct (last_failure ss); cbn [fix_session]; [| lia].
  destruct (Z.leb_spec 2 (debug_attempts ss)); cbn [fix_session]; [lia |].
  destruct (apply_mitigation fs dir key) as [fs' [[] msg]];
    cbn [fix_session set_debug_attempts debug_attempts]; lia.
Qed.

(** ** Errors *)

(** C8, as amended: an exception raised inside the check is turned into
    the failing verdict [(False, "check error: ...")], and one raised
    inside the mitigation into [(False, "mitigation error: ...")];
    [generate_assets] has no handler, so that a run of the script is ended
    by an exception exactly when the script calls [generate_assets] and
    the call raises it. *)
Theorem errors_caught_except_in_generate {pd : Pandas} (fs : filesystem)
    (base : string) (key : scenario_key) (idx : Z) (e : exn) (w : widgets)
    (ss : session) :
  (failure_step (SCENARIOS key) <= idx →
   check_step_body fs base key idx = Raise e →
   check_step_truth fs base key idx = (false, "check error: " +:+ str_exn e)) ∧
  (apply_mitigation_body fs base key = Raise e →
   (apply_mitigation fs base key).2 = (false, "mitigation error: " +:+ str_exn e)) ∧
  (let dir := assets_dir_of (w_demo w) in
   let r := handle_fix (w_fix w) (w_run w)
              (set_selection (w_cloud w) (w_demo w) dir ss) fs dir (w_demo w) in
   out_crash (script w ss fs) = Some e ↔
   out_generated (script w ss fs) = true ∧
   generate_assets (fix_fs r) dir (w_demo w) = Raise e).
Proof.
  split_and!.
  - intros Hge Hbody. unfold check_step_truth. rewrite Hbody.
    destruct (Z.ltb_spec idx (failure_step (SCENARIOS key))); [lia | done].
  - intros Hbody. unfold apply_mitigation. by rewrite Hbody.
  - cbv zeta. unfold script.
    set (r := handle_fix _ _ _ _ _ _).
    set (regenerate := (_ || _ || fix_run_btn r)%bool).
    destruct regenerate.
    + destruct (generate_assets (fix_fs r) _ _) as [fs' | e'].
      * destruct (if fix_run_btn r then _ else _); cbn.
        split; [discriminate | intros [_ [=]]].
      * cbn. split; [by intros [= ->] | by intros [_ [= ->]]].
    + cbn [out_crash]. destruct (if fix_run_btn r then _ else _). cbn.
      split; [discriminate | intros [[=] _]].
Qed.

Lemma errors_caught_except_in_generate_witness :
  let pd := pandas_3 in
  let dir := assets_dir_of Demo2 in
  let blocked : filesystem := {[ "/tmp" := Dir; "/tmp/ci_ct_cd_sim" := File (Text "") ]} in
  check_step_truth ∅ "/d" Demo2 6 =
    (false, "check error: [Errno 2] No such file or directory: '/d/Dockerfile'") ∧
  (apply_mitigation ∅ "/d" Demo2).2 =
    (false, "mitigation error: [Errno 2] No such file or directory: '/d/Dockerfile'") ∧
  out_crash (script (press_run AWS Demo2) init_state blocked) =
    Some (NotADirectoryError dir).
Proof.
  cbv zeta.
  pose proof (errors_caught_except_in_generate (pd := pandas_3) ∅ "/d" Demo2 6
                (FileNotFoundError "/d/Dockerfile") (press_run AWS Demo2) init_state)
    as (Hcheck & Hfix & _).
  pose proof (errors_caught_except_in_generate (pd := pandas_3)
                {[ "/tmp" := Dir; "/tmp/ci_ct_cd_sim" := File (Text "") ]}
                "/d" Demo2 6 (NotADirectoryError (assets_dir_of Demo2))
                (press_run AWS Demo2) init_state)
    as (_ & _ & Hcrash).
  split_and!.
  - apply Hcheck; [simpl; lia | reflexivity].
  - apply Hfix. reflexivity.
  - apply Hcrash. vm_compute. split; reflexivity.
Defined.

(** C8, as stated, fails for [generate_assets]: when the assets directory
    of the selected demo exists as a regular file, [shutil.rmtree] raises
    NotADirectoryError inside [generate_assets], nothing catches it, and it
    ends the run of the script. *)
Lemma generate_assets_error_propagates :
  let pd := pandas_3 in
  let dir := assets_dir_of Demo2 in
  let fs : filesystem :=
    {[ "/tmp" := Dir; "/tmp/ci_ct_cd_sim" := Dir; dir := File (Text "") ]} in
  let o := script (press_run AWS Demo2) init_state fs in
  generate_assets fs dir Demo2 = Raise (NotADirectoryError dir) ∧
  out_crash o = Some (NotADirectoryError dir) ∧
  last_run_logs (out_session o) = [] ∧
  last_failure (out_session o) = None.
Proof. vm_compute. split_and!; reflexivity. Qed.

(** ** Paths and directories *)

Lemma length_app (s1 s2 : string) :
  String.length (s1 +:+ s2) = (String.length s1 + String.length s2)%nat.
Proof. induction s1 as [| c s1 IH]; simpl; [done | by f_equal]. Qed.

Lemma string_app_assoc (a b c : string) : (a +:+ b) +:+ c = a +:+ (b +:+ c).
Proof.
  induction a as [| x a IH]; [done |].
  change (String x ((a +:+ b) +:+ c) = String x (a +:+ (b +:+ c))).
  by rewrite IH.
Qed.

Lemma string_app_nil_r (s : string) : s +:+ "" = s.
Proof.
  induction s as [| x s IH]; [done |].
  change (String x (s +:+ "") = String x s). by rewrite IH.
Qed.

Lemma join_length base name :
  String.length (FS.join base name) =
  (String.length base + 1 + String.length name)%nat.
Proof. unfold FS.join. rewrite !length_app. cbn. lia. Qed.

Lemma join_inj base n1 n2 : FS.join base n1 = FS.join base n2 → n1 = n2.
Proof.
  unfold FS.join. intros H.
  apply (inj (String.app base)) in H. by apply (inj (String.app "/")) in H.
Qed.

Lemma ancestors_aux_length seen rest q :
  q ∈ FS.ancestors_aux seen rest →
  (String.length q < String.length seen + String.length rest)%nat.
Proof.
  revert seen. induction rest as [| c r IH]; intros seen Hin;
    cbn [FS.ancestors_aux] in Hin.
  - by apply not_elem_of_nil in Hin.
  - apply elem_of_app in Hin as [Hin | Hin].
    + destruct (FS.is_slash c && nonempty seen).
      * apply list_elem_of_singleton in Hin as ->. simpl. lia.
      * by apply not_elem_of_nil in Hin.
    + apply IH in Hin. rewrite length_app in Hin. simpl in *. lia.
Qed.

Lemma ancestors_shorter base q :
  q ∈ (FS.ancestors base ++ [base])%list →
  (String.length q <= String.length base)%nat.
Proof.
  intros [Hin | Hin]%elem_of_app.
  - apply ancestors_aux_length in Hin. cbn in Hin. lia.
  - by apply list_elem_of_singleton in Hin as ->.
Qed.

Lemma join_not_ancestor base name :
  FS.join base name ∉ (FS.ancestors base ++ [base])%list.
Proof.
  intros Hin%ancestors_shorter. rewrite join_length in Hin. lia.
Qed.

Lemma before_last_slash_join base name :
  slash_free name →
  FS.before_last_slash (FS.join base name) = Some base.
Proof.
  unfold slash_free, FS.join. intros Hfree.
  induction base as [| c b IH].
  - change (FS.before_last_slash (String (Ascii.ascii_of_nat 47) name) = Some "").
    cbn [FS.before_last_slash]. by rewrite Hfree.
  - change (FS.before_last_slash (String c (b +:+ "/" +:+ name)) = Some (String c b)).
    cbn [FS.before_last_slash]. by rewrite IH.
Qed.

Lemma dirname_join base name :
  base ≠ "" → slash_free name → FS.dirname (FS.join base name) = base.
Proof.
  intros Hne Hfree. unfold FS.dirname.
  rewrite before_last_slash_join by done. by destruct base.
Qed.

Lemma dir_ok_base fs base : dir_ok fs base → fs !! base = Some Dir.
Proof. intros Hok. apply Hok. apply elem_of_app. right. by apply list_elem_of_singleton. Qed.

Lemma dir_ok_insert fs base name n :
  dir_ok fs base → dir_ok (<[FS.join base name := n]> fs) base.
Proof.
  intros Hok q Hq. rewrite lookup_insert_ne; [by apply Hok |].
  intros <-. by apply join_not_ancestor in Hq.
Qed.

Lemma mkdirs_dirs paths (fs : filesystem) :
  (∀ q, q ∈ paths → fs !! q = Some Dir) → FS.mkdirs paths fs = Ok fs.
Proof.
  induction paths as [| q qs IH]; intros Hdirs; cbn; [done |].
  rewrite (Hdirs q) by apply list_elem_of_here.
  apply IH. intros q' Hq'. apply Hdirs. by apply list_elem_of_further.
Qed.

Lemma mkdirs_post paths (fs fs' : filesystem) :
  FS.mkdirs paths fs = Ok fs' → ∀ q, q ∈ paths → fs' !! q = Some Dir.
Proof.
  revert fs. induction paths as [| p ps IH]; intros fs Hmk q Hq.
  - by apply not_elem_of_nil in Hq.
  - cbn in Hmk. destruct (decide (q ∈ ps)) as [Hin | Hnin].
    + destruct (fs !! p) as [[| a] |]; [by eapply IH | done | by eapply IH].
    + apply elem_of_cons in Hq as [Heq | Hin]; [subst q | done].
      assert (∀ fs0 : filesystem, fs0 !! p = Some Dir →
                FS.mkdirs ps fs0 = Ok fs' → fs' !! p = Some Dir) as Hkeep.
      { clear -Hnin. induction ps as [| r rs IHr]; intros fs0 Hp Hmk; cbn in Hmk.
        - by injection Hmk as <-.
        - apply not_elem_of_cons in Hnin as [Hpr Hprs].
          destruct (fs0 !! r) as [[| a] |] eqn:Hr; [by eapply IHr | done |].
          eapply IHr; [done | | done]. by rewrite lookup_insert_ne. }
      destruct (fs !! p) as [[| a] |] eqn:Hp; [by eapply Hkeep | done |].
      eapply Hkeep; [| done]. by rewrite lookup_insert_eq.
Qed.

Lemma normal_path_ne base : normal_path base = true → base ≠ "".
Proof. by intros Hn ->. Qed.

Lemma nonempty_ne (s : string) : s ≠ "" → nonempty s = true.
Proof. by destruct s. Qed.

Lemma makedirs_nonempty fs base :
  base ≠ "" → FS.makedirs fs base = FS.mkdirs (FS.ancestors base ++ [base])%list fs.
Proof. intros Hne. unfold FS.makedirs. by rewrite nonempty_ne. Qed.

Lemma makedirs_dir_ok fs base fs' : FS.makedirs fs base = Ok fs' → dir_ok fs' base.
Proof.
  unfold FS.makedirs, dir_ok. destruct (nonempty base); [apply mkdirs_post | done].
Qed.

Lemma makedirs_noop fs base :
  base ≠ "" → dir_ok fs base → FS.makedirs fs base = Ok fs.
Proof. intros Hne. rewrite makedirs_nonempty by done. apply mkdirs_dirs. Qed.

(** The directories above a file of an assets directory, and the walk
    down to it. *)
Lemma slash_free_cons c n :
  slash_free (String c n) → FS.is_slash c = false ∧ slash_free n.
Proof.
  unfold slash_free. cbn [FS.before_last_slash].
  destruct (FS.before_last_slash n); [done |]. by destruct (FS.is_slash c).
Qed.

Lemma ancestors_aux_slash_free seen n :
  slash_free n → FS.ancestors_aux seen n = [].
Proof.
  revert seen. induction n as [| c n IH]; intros seen Hfree; [done |].
  apply slash_free_cons in Hfree as [Hc Hn]. cbn [FS.ancestors_aux].
  rewrite Hc. cbn [andb app]. by apply IH.
Qed.

Lemma ancestors_aux_app seen a b :
  FS.ancestors_aux seen (a +:+ b) =
  (FS.ancestors_aux seen a ++ FS.ancestors_aux (seen +:+ a) b)%list.
Proof.
  revert seen. induction a as [| c a IH]; intros seen.
  - by rewrite string_app_nil_r.
  - change (String c a +:+ b) with (String c (a +:+ b)).
    cbn [FS.ancestors_aux]. rewrite IH, string_app_assoc, <- app_assoc. done.
Qed.

Lemma ancestors_join base name :
  base ≠ "" → slash_free name →
  FS.ancestors (FS.join base name) = (FS.ancestors base ++ [base])%list.
Proof.
  intros Hne Hfree. unfold FS.ancestors, FS.join. rewrite ancestors_aux_app.
  change ("" +:+ base) with base.
  change ("/" +:+ name) with (String (Ascii.ascii_of_nat 47) name).
  cbn [FS.ancestors_aux]. rewrite nonempty_ne by done.
  rewrite (ancestors_aux_slash_free _ name) by done. reflexivity.
Qed.

Lemma walk_dirs (fs : filesystem) dirs p :
  (∀ q, q ∈ dirs → fs !! q = Some Dir) → FS.walk fs dirs p = FileNotFoundError p.
Proof.
  induction dirs as [| d ds IH]; intros Hdirs; cbn; [done |].
  rewrite (Hdirs d) by apply list_elem_of_here.
  apply IH. intros q Hq. apply Hdirs. by apply list_elem_of_further.
Qed.

Lemma walk_same (fs1 fs2 : filesystem) dirs p :
  (∀ q, q ∈ dirs → fs1 !! q = fs2 !! q) → FS.walk fs1 dirs p = FS.walk fs2 dirs p.
Proof.
  induction dirs as [| d ds IH]; intros Hdirs; cbn; [done |].
  rewrite (Hdirs d) by apply list_elem_of_here.
  destruct (fs2 !! d) as [[| a] |]; [| done | done].
  apply IH. intros q Hq. apply Hdirs. by apply list_elem_of_further.
Qed.

Lemma missing_join fs base name :
  base ≠ "" → slash_free name → dir_ok fs base →
  FS.missing fs (FS.join base name) = FileNotFoundError (FS.join base name).
Proof.
  intros Hne Hfree Hok. unfold FS.missing. rewrite ancestors_join by done.
  by apply walk_dirs.
Qed.

(** Reading a file of an assets directory that is there. *)
Lemma open_read_join fs base name :
  base ≠ "" → slash_free name → dir_ok fs base →
  FS.open_read fs (FS.join base name) =
  match fs !! FS.join base name with
  | Some (File a) => Ok a
  | Some Dir => Raise (IsADirectoryError (FS.join base name))
  | None => Raise (FileNotFoundError (FS.join base name))
  end.
Proof.
  intros Hne Hfree Hok. unfold FS.open_read. by rewrite missing_join.
Qed.

(** Writing a file of an assets directory that is there. *)
Lemma open_write_join fs base name a :
  dir_ok fs base → base ≠ "" → slash_free name →
  FS.open_write fs (FS.join base name) a =
  match fs !! FS.join base name with
  | Some Dir => Raise (IsADirectoryError (FS.join base name))
  | _ => Ok (<[FS.join base name := File a]> fs)
  end.
Proof.
  intros Hok Hne Hfree. unfold FS.open_write.
  rewrite dirname_join by done. rewrite (dir_ok_base _ _ Hok).
  by destruct (fs !! FS.join base name) as [[| ?] |].
Qed.

Lemma write_join fs base name a :
  dir_ok fs base → base ≠ "" → slash_free name →
  write fs (FS.join base name) a =
  match fs !! FS.join base name with
  | Some Dir => Raise (IsADirectoryError (FS.join base name))
  | _ => Ok (<[FS.join base name := File a]> fs)
  end.
Proof.
  intros Hok Hne Hfree. unfold write.
  rewrite dirname_join by done. rewrite makedirs_noop by done.
  cbn [mbind result_bind]. by apply open_write_join.
Qed.

(** ** What the verdict depends on *)

Lemma artifact_names_slash_free t name :
  name ∈ artifact_names t → slash_free name.
Proof.
  destruct t; cbn [artifact_names]; rewrite ?elem_of_cons, elem_of_nil;
    intros Hin; destruct_or!; by subst.
Qed.

Section Frame.

Variables (fs1 fs2 : filesystem) (base : string) (key : scenario_key).

Hypothesis base_ne : base ≠ "".

Hypothesis same_artifacts :
  ∀ name, name ∈ artifact_names (s_type (SCENARIOS key)) →
          fs1 !! FS.join base name = fs2 !! FS.join base name.

Hypothesis same_directories :
  ∀ q, q ∈ (FS.ancestors base ++ [base])%list → fs1 !! q = fs2 !! q.

Lemma open_read_same name :
  name ∈ artifact_names (s_type (SCENARIOS key)) →
  FS.open_read fs1 (FS.join base name) = FS.open_read fs2 (FS.join base name).
Proof.
  intros Hin. unfold FS.open_read, FS.missing.
  rewrite (same_artifacts name Hin).
  rewrite ancestors_join by eauto using artifact_names_slash_free.
  by rewrite (walk_same fs1 fs2).
Qed.

Lemma check_step_body_same idx :
  check_step_body fs1 base key idx = check_step_body fs2 base key idx.
Proof.
  unfold check_step_body, FS.read_text, FS.read_json, FS.read_yaml, FS.read_csv.
  destruct (negb (idx =? failure_step (SCENARIOS key))); [done |].
  pose proof open_read_same as Hopen.
  destruct (s_type (SCENARIOS key)); cbn [artifact_names] in Hopen;
    repeat (rewrite Hopen
              by first [apply list_elem_of_here
                       | apply list_elem_of_further, list_elem_of_here]);
    done.
Qed.

Lemma check_step_truth_same idx :
  check_step_truth fs1 base key idx = check_step_truth fs2 base key idx.
Proof. unfold check_step_truth. by rewrite check_step_body_same. Qed.

Lemma run_steps_same steps ss1 ss2 :
  run_record ss1 = run_record ss2 →
  run_record (run_steps steps fs1 base key ss1).1 =
  run_record (run_steps steps fs2 base key ss2).1.
Proof.
  revert ss1 ss2. induction steps as [| [idx step] rest IH]; intros ss1 ss2 Hrec.
  - done.
  - cbn [run_steps]. rewrite check_step_truth_same.
    destruct (check_step_truth fs2 base key idx) as [[] detail].
    + specialize (IH (set_last_run_logs
                        (last_run_logs ss1 ++ ["✅ " +:+ step +:+ ": OK (" +:+ detail +:+ ")"])%list ss1)
                     (set_last_run_logs
                        (last_run_logs ss2 ++ ["✅ " +:+ step +:+ ": OK (" +:+ detail +:+ ")"])%list ss2)).
      destruct (run_steps rest fs1 base key _) as [s1 u1].
      destruct (run_steps rest fs2 base key _) as [s2 u2].
      apply IH. unfold run_record in *. cbn [set_last_run_logs last_run_logs
        last_failure pipeline_completed running]. congruence.
    + unfold run_record in *. cbn. congruence.
Qed.

Lemma run_pipeline_same ss1 ss2 :
  run_record (run_pipeline fs1 base key ss1).1 =
  run_record (run_pipeline fs2 base key ss2).1.
Proof.
  unfold run_pipeline.
  pose proof (run_steps_same (enumerate 1 STEPS)
    (set_last_failure None (set_pipeline_completed false
       (set_last_run_logs [] (set_running true ss1))))
    (set_last_failure None (set_pipeline_completed false
       (set_last_run_logs [] (set_running true ss2)))) eq_refl) as Hrun.
  destruct (run_steps _ fs1 base key _) as [s1 u1].
  destruct (run_steps _ fs2 base key _) as [s2 u2].
  cbn [fst] in Hrun. unfold run_record in Hrun.
  injection Hrun as Hlogs Hfail Hdone Hrunning.
  rewrite Hfail. destruct (last_failure s2) eqn:Hf2; unfold run_record; cbn;
    congruence.
Qed.

End Frame.

(** C9: the verdict of a step is a function of the content of the
    scenario's artifacts alone. Two file systems that hold the same
    artifacts for the scenario, in an assets directory that is in the same
    state on both, give the same verdict, pass flag and detail, at every
    step; and a run of the pipeline over them leaves the same logs,
    failure record and completion flag whatever the two sessions held
    before, the selected provider and the attempt count included. *)
Theorem verdict_depends_on_artifacts_only (fs1 fs2 : filesystem)
    (base : string) (key : scenario_key) (ss1 ss2 : session) :
  normal_path base = true →
  (∀ name, name ∈ artifact_names (s_type (SCENARIOS key)) →
           fs1 !! FS.join base name = fs2 !! FS.join base name) →
  (∀ q, q ∈ (FS.ancestors base ++ [base])%list → fs1 !! q = fs2 !! q) →
  (∀ idx, check_step_truth fs1 base key idx = check_step_truth fs2 base key idx) ∧
  run_record (run_pipeline fs1 base key ss1).1 =
  run_record (run_pipeline fs2 base key ss2).1.
Proof.
  intros Hne%normal_path_ne Hsame Hdirs. split.
  - intros idx. by apply check_step_truth_same.
  - by apply run_pipeline_same.
Qed.

Lemma verdict_depends_on_artifacts_only_witness :
  let fs1 : filesystem :=
    {[ "/srv" := Dir; "/srv/d" := Dir;
       "/srv/d/Dockerfile" := File (Text ("COPY." +:+ LF)) ]} in
  let fs2 : filesystem :=
    <[ "/srv/d/notes.txt" := File (Text "COPY . /app") ]>
      (<[ "/home" := Dir ]> fs1) in
  let ss1 := init_state in
  let ss2 := set_debug_attempts 2 (set_selection Azure Demo7 "/e" init_state) in
  (∀ idx, check_step_truth fs1 "/srv/d" Demo2 idx =
          check_step_truth fs2 "/srv/d" Demo2 idx) ∧
  run_record (run_pipeline fs1 "/srv/d" Demo2 ss1).1 =
  run_record (run_pipeline fs2 "/srv/d" Demo2 ss2).1.
Proof.
  cbv zeta. apply verdict_depends_on_artifacts_only.
  - reflexivity.
  - intros name Hin. cbn [SCENARIOS s_type artifact_names] in Hin.
    apply list_elem_of_singleton in Hin as ->.
    vm_compute. reflexivity.
  - intros q Hq. change (q ∈ ["/srv"; "/srv/d"]) in Hq.
    apply elem_of_cons in Hq as [-> | Hq]; [vm_compute; reflexivity |].
    apply list_elem_of_singleton in Hq as ->. vm_compute. reflexivity.
Defined.

(** ** Two assets directories with the same artifacts *)

Lemma rel_res_bind {A B A' B'} (R : A → B → Prop) (Q : A' → B' → Prop)
    (m1 : result A) (m2 : result B) (f : A → result A') (g : B → result B') :
  rel_res R m1 m2 →
  (∀ a b, R a b → rel_res Q (f a) (g b)) →
  rel_res Q (m1 ≫= f) (m2 ≫= g).
Proof. destruct m1, m2; cbn; auto; done. Qed.

Lemma view_mono names names' b1 b2 fs1 fs2 :
  names' ⊆ names → view names b1 b2 fs1 fs2 → view names' b1 b2 fs1 fs2.
Proof.
  intros Hsub (Hok1 & Hok2 & Hsame). split_and!; [done | done |].
  intros n Hn. apply Hsame. by apply Hsub.
Qed.

Section Views.

Variables (names : list string) (b1 b2 : string).
Hypotheses (b1_ne : b1 ≠ "") (b2_ne : b2 ≠ "").

Lemma same_on_insert fs1 fs2 n x :
  same_on names fs1 b1 fs2 b2 →
  same_on (n :: names) (<[FS.join b1 n := x]> fs1) b1 (<[FS.join b2 n := x]> fs2) b2.
Proof.
  intros Hsame m Hm. destruct (decide (m = n)) as [Heq | Hne]; [subst m |].
  - by rewrite !lookup_insert_eq.
  - assert (FS.join b1 n ≠ FS.join b1 m) by (intros Heq; by apply join_inj in Heq).
    assert (FS.join b2 n ≠ FS.join b2 m) by (intros Heq; by apply join_inj in Heq).
    rewrite !lookup_insert_ne by done.
    apply Hsame. by apply elem_of_cons in Hm as [? | ?].
Qed.

Lemma view_insert fs1 fs2 n x :
  view names b1 b2 fs1 fs2 →
  view (n :: names) b1 b2 (<[FS.join b1 n := x]> fs1) (<[FS.join b2 n := x]> fs2).
Proof.
  intros (Hok1 & Hok2 & Hsame).
  split_and!; [by apply dir_ok_insert | by apply dir_ok_insert | by apply same_on_insert].
Qed.


(** A file written under a new name in both directories. *)
Lemma view_write fs1 fs2 fs1' fs2' n a :
  slash_free n →
  view names b1 b2 fs1 fs2 →
  write fs1 (FS.join b1 n) a = Ok fs1' →
  write fs2 (FS.join b2 n) a = Ok fs2' →
  view (n :: names) b1 b2 fs1' fs2'.
Proof.
  intros Hfree Hview. pose proof Hview as (Hok1 & Hok2 & _).
  rewrite !write_join by done.
  destruct (fs1 !! FS.join b1 n) as [[| ?] |], (fs2 !! FS.join b2 n) as [[| ?] |];
    intros [= <-] [= <-]; by apply view_insert.
Qed.

Lemma view_to_csv fs1 fs2 fs1' fs2' n df :
  slash_free n →
  view names b1 b2 fs1 fs2 →
  FS.to_csv fs1 (FS.join b1 n) df = Ok fs1' →
  FS.to_csv fs2 (FS.join b2 n) df = Ok fs2' →
  view (n :: names) b1 b2 fs1' fs2'.
Proof.
  intros Hfree Hview. pose proof Hview as (Hok1 & Hok2 & _).
  unfold FS.to_csv. rewrite !open_write_join by done.
  destruct (fs1 !! FS.join b1 n) as [[| ?] |], (fs2 !! FS.join b2 n) as [[| ?] |];
    intros [= <-] [= <-]; by apply view_insert.
Qed.

(** A file of the view read or rewritten in both directories. *)
Context (fs1 fs2 : filesystem) (Hview : view names b1 b2 fs1 fs2).

Lemma view_open_read n :
  n ∈ names →
  rel_res eq (FS.open_read fs1 (FS.join b1 n)) (FS.open_read fs2 (FS.join b2 n)).
Proof.
  intros Hin. destruct Hview as (_ & _ & Hsame). unfold FS.open_read.
  rewrite (Hsame n Hin). by destruct (fs2 !! FS.join b2 n) as [[| ?] |].
Qed.

Lemma view_read_text n :
  n ∈ names →
  rel_res eq (FS.read_text fs1 (FS.join b1 n)) (FS.read_text fs2 (FS.join b2 n)).
Proof.
  intros Hin. unfold FS.read_text.
  eapply rel_res_bind; [by apply view_open_read |].
  intros a ? <-. by destruct a.
Qed.

Lemma view_read_json n :
  n ∈ names →
  rel_res eq (FS.read_json fs1 (FS.join b1 n)) (FS.read_json fs2 (FS.join b2 n)).
Proof.
  intros Hin. unfold FS.read_json.
  eapply rel_res_bind; [by apply view_open_read |].
  intros a ? <-. by destruct a.
Qed.

Lemma view_read_yaml n :
  n ∈ names →
  rel_res eq (FS.read_yaml fs1 (FS.join b1 n)) (FS.read_yaml fs2 (FS.join b2 n)).
Proof.
  intros Hin. unfold FS.read_yaml.
  eapply rel_res_bind; [by apply view_open_read |].
  intros a ? <-. by destruct a.
Qed.

Lemma view_read_csv n :
  n ∈ names →
  rel_res eq (FS.read_csv fs1 (FS.join b1 n)) (FS.read_csv fs2 (FS.join b2 n)).
Proof.
  intros Hin. unfold FS.read_csv.
  eapply rel_res_bind; [by apply view_open_read |].
  intros a ? <-. by destruct a.
Qed.




End Views.

Lemma rel_res_refl {A} (m : result A) : rel_res eq m m.
Proof. by destruct m. Qed.

Lemma bind_Ok {A B} (m : result A) (f : A → result B) (y : B) :
  m ≫= f = Ok y → ∃ x, m = Ok x ∧ f x = Ok y.
Proof. destruct m as [x | e]; cbn; [by exists x | done]. Qed.

Lemma assets_dir_of_nonempty key : assets_dir_of key ≠ "".
Proof. done. Qed.

(** ** Generation, check and mitigation seen through the artifacts *)

Section Transfer.

Variables (b1 b2 : string) (key : scenario_key).
Hypotheses (b1_ne : b1 ≠ "") (b2_ne : b2 ≠ "").

(** Membership and inclusion of lists of file names, by evaluation. *)
Ltac decide_names := apply (bool_decide_unpack _); vm_compute; reflexivity.

Ltac invert_binds :=
  repeat match goal with
         | H : _ ≫= _ = Ok _ |- _ =>
             let x := fresh "fs" in
             let Hx := fresh "Hstep" in
             let Hk := fresh "Hrest" in
             destruct (bind_Ok _ _ _ H) as (x & Hx & Hk); clear H
         end.

Ltac chain_views :=
  repeat match goal with
         | Hv : view ?S b1 b2 ?f1 ?f2,
           H1 : write ?f1 (FS.join b1 ?n) ?a = Ok ?g1,
           H2 : write ?f2 (FS.join b2 ?n) ?a = Ok ?g2 |- _ =>
             pose proof (view_write S b1 b2 b1_ne b2_ne f1 f2 g1 g2 n a
                           eq_refl Hv H1 H2);
             clear Hv H1 H2
         | Hv : view ?S b1 b2 ?f1 ?f2,
           H1 : FS.to_csv ?f1 (FS.join b1 ?n) ?a = Ok ?g1,
           H2 : FS.to_csv ?f2 (FS.join b2 ?n) ?a = Ok ?g2 |- _ =>
             pose proof (view_to_csv S b1 b2 b1_ne b2_ne f1 f2 g1 g2 n a
                           eq_refl Hv H1 H2);
             clear Hv H1 H2
         end.

(** Two successful generations of a scenario leave the same artifacts. *)
Lemma generate_view fs1 fs2 fs1' fs2' :
  generate_assets fs1 b1 key = Ok fs1' →
  generate_assets fs2 b2 key = Ok fs2' →
  view (artifact_names (s_type (SCENARIOS key))) b1 b2 fs1' fs2'.
Proof.
  unfold generate_assets. intros H1 H2.
  destruct (bind_Ok _ _ _ H1) as (fa1 & _ & Ha1).
  destruct (bind_Ok _ _ _ H2) as (fa2 & _ & Ha2). clear H1 H2.
  destruct (bind_Ok _ _ _ Ha1) as (fb1 & Hmk1 & H1).
  destruct (bind_Ok _ _ _ Ha2) as (fb2 & Hmk2 & H2). clear Ha1 Ha2.
  assert (view [] b1 b2 fb1 fb2) as Hv.
  { split_and!; [by eapply makedirs_dir_ok | by eapply makedirs_dir_ok |].
    intros n Hn. by apply not_elem_of_nil in Hn. }
  clear Hmk1 Hmk2.
  cbv zeta in H1, H2.
  destruct (bind_Ok _ _ _ H1) as (fc1 & Happ1 & Hc1).
  destruct (bind_Ok _ _ _ H2) as (fc2 & Happ2 & Hc2). clear H1 H2.
  destruct key; cbn [SCENARIOS s_type artifact_names] in *;
    invert_binds; chain_views;
    (eapply view_mono; [| eassumption]); decide_names.
Qed.


Ltac read_by_view :=
  eapply rel_res_bind;
  [first [ eapply view_read_text | eapply view_read_csv
         | eapply view_read_json | eapply view_read_yaml ];
   [eassumption | decide_names]
  | intros ? ? <-].


(** Directories with the same artifacts are judged alike. *)
Lemma check_body_view fs1 fs2 idx :
  view (artifact_names (s_type (SCENARIOS key))) b1 b2 fs1 fs2 →
  rel_res eq (check_step_body fs1 b1 key idx) (check_step_body fs2 b2 key idx).
Proof.
  intros Hv. unfold check_step_body. cbv zeta.
  destruct (negb (idx =? failure_step (SCENARIOS key))); [done |].
  destruct key; cbn [SCENARIOS s_type artifact_names] in *;
    repeat read_by_view; apply rel_res_refl.
Qed.

Lemma check_view fs1 fs2 idx :
  view (artifact_names (s_type (SCENARIOS key))) b1 b2 fs1 fs2 →
  passed (check_step_truth fs1 b1 key idx) = passed (check_step_truth fs2 b2 key idx).
Proof.
  intros Hv. unfold check_step_truth. cbv zeta.
  destruct (idx <? failure_step (SCENARIOS key)); [done |].
  pose proof (check_body_view fs1 fs2 idx Hv) as Hrel.
  destruct (check_step_body fs1 b1 key idx), (check_step_body fs2 b2 key idx);
    cbn in Hrel; [by subst | done | done | done].
Qed.

End Transfer.

(** ** Mitigation is sufficient and idempotent *)









(** ** The run loop and the script as a whole *)

Lemma run_steps_keeps steps fs dir key ss :
  let ss' := (run_steps steps fs dir key ss).1 in
  debug_attempts ss' = debug_attempts ss ∧
  pipeline_completed ss' = pipeline_completed ss ∧
  cloud ss' = cloud ss ∧ demo_key ss' = demo_key ss.
Proof.
  cbv zeta. revert ss. induction steps as [| [idx step] rest IH]; intros ss.
  - done.
  - cbn [run_steps]. destruct (check_step_truth fs dir key idx) as [[] detail].
    + specialize (IH (set_last_run_logs
                        (last_run_logs ss ++ ["✅ " +:+ step +:+ ": OK (" +:+ detail +:+ ")"])%list ss)).
      destruct (run_steps rest fs dir key _) as [s u]. exact IH.
    + done.
Qed.

Lemma run_steps_fails_at steps fs dir key ss :
  last_failure ss = None →
  match last_failure (run_steps steps fs dir key ss).1 with
  | None => True
  | Some (idx, detail) =>
      idx = failure_step (SCENARIOS key) ∧
      check_step_truth fs dir key idx = (false, detail)
  end.
Proof.
  revert ss. induction steps as [| [idx step] rest IH]; intros ss Hnone.
  - cbn. by rewrite Hnone.
  - cbn [run_steps].
    destruct (check_step_truth fs dir key idx) as [[] detail] eqn:Hcheck.
    + specialize (IH (set_last_run_logs
                        (last_run_logs ss ++ ["✅ " +:+ step +:+ ": OK (" +:+ detail +:+ ")"])%list ss)
                     Hnone).
      destruct (run_steps rest fs dir key _) as [s u]. exact IH.
    + cbn. split; [| done].
      destruct (decide (idx = failure_step (SCENARIOS key))) as [| Hne]; [done |].
      rewrite (check_step_truth_other fs dir key idx Hne) in Hcheck. done.
Qed.

(** X1: a run of the pipeline ends in one of two ways. Either no step
    failed and the pipeline is marked completed, or the failure record
    names the scenario's failing step, with the detail the check returned
    there, and the pipeline is not marked completed. No other step can
    stop the run. *)
Theorem run_pipeline_outcome (fs : filesystem) (dir : string)
    (key : scenario_key) (ss : session) :
  let ss' := (run_pipeline fs dir key ss).1 in
  let step := failure_step (SCENARIOS key) in
  (last_failure ss' = None ∧ pipeline_completed ss' = true) ∨
  (∃ detail, last_failure ss' = Some (step, detail) ∧
             check_step_truth fs dir key step = (false, detail) ∧
             pipeline_completed ss' = false).
Proof.
  cbv zeta. unfold run_pipeline.
  set (ss0 := set_last_failure None _).
  pose proof (run_steps_fails_at (enumerate 1 STEPS) fs dir key ss0 eq_refl) as Hfail.
  pose proof (run_steps_keeps (enumerate 1 STEPS) fs dir key ss0) as (_ & Hdone & _).
  destruct (run_steps _ fs dir key ss0) as [s u]. cbn [fst] in *.
  destruct (last_failure s) as [[idx detail] |] eqn:Hlast.
  - right. destruct Hfail as [-> Hcheck]. exists detail. cbn [fst].
    by rewrite Hlast, Hdone.
  - left. done.
Qed.

(** X2: the attempt count never goes down and never passes 2: one run of
    the script, whatever the widgets, leaves it between its old value and
    2 when it started at most at 2. *)
Theorem script_attempts_bounded {pd : Pandas}
    (w : widgets) (ss : session) (fs : filesystem) :
  debug_attempts ss <= 2 →
  debug_attempts ss <= debug_attempts (out_session (script w ss fs)) <= 2.
Proof.
  intros Hle. unfold script.
  set (dir := assets_dir_of (w_demo w)).
  set (ss0 := set_selection _ _ _ ss).
  pose proof (handle_fix_attempts (w_fix w) (w_run w) ss0 fs dir (w_demo w) Hle) as Hfix.
  change (debug_attempts ss0) with (debug_attempts ss) in Hfix.
  set (r := handle_fix _ _ _ _ _ _) in *.
  match goal with
  | |- context [match ?g with Ok _ => _ | Raise _ => _ end] =>
      destruct g as [fs' | e]
  end; cbn [out_session].
  - destruct (fix_run_btn r).
    + unfold run_pipeline. set (ss1 := set_last_failure None _).
      pose proof (run_steps_keeps (enumerate 1 STEPS) fs' dir (w_demo w) ss1)
        as (Hatt & _).
      destruct (run_steps _ fs' dir _ ss1) as [s u]. cbn [fst] in Hatt.
      change (debug_attempts ss1) with (debug_attempts (fix_session r)) in Hatt.
      destruct (last_failure s); cbn [out_session set_running
        set_pipeline_completed debug_attempts]; lia.
    + cbn [out_session]. lia.
  - lia.
Qed.

Lemma script_attempts_bounded_witness :
  let pd := pandas_3 in
  0 <= debug_attempts (out_session (script (press_fix AWS Demo2) init_state ∅)) <= 2.
Proof.
  intros pd. cbv zeta.
  apply (script_attempts_bounded (press_fix AWS Demo2) init_state ∅). simpl. lia. Defined.

(** X3: when the script runs the pipeline, after the run button or after a
    successful fix, and is not ended by an exception, the file system the
    steps are checked on is the one [generate_assets] has just written in
    that same run of the script. *)
Theorem script_runs_on_regenerated_assets {pd : Pandas}
    (w : widgets) (ss : session)
    (fs : filesystem) :
  let dir := assets_dir_of (w_demo w) in
  let r := handle_fix (w_fix w) (w_run w)
             (set_selection (w_cloud w) (w_demo w) dir ss) fs dir (w_demo w) in
  let o := script w ss fs in
  fix_run_btn r = true →
  out_crash o = None →
  out_generated o = true ∧
  generate_assets (fix_fs r) dir (w_demo w) = Ok (out_fs o).
Proof.
  cbv zeta. unfold script.
  set (dir := assets_dir_of (w_demo w)).
  set (r := handle_fix _ _ _ _ _ _).
  intros Hrun. rewrite Hrun, !orb_true_r.
  destruct (generate_assets (fix_fs r) dir (w_demo w)) as [fs' | e].
  - destruct (run_pipeline fs' dir (w_demo w) (fix_session r)). done.
  - done.
Qed.

Lemma script_runs_on_regenerated_assets_witness :
  let pd := pandas_3 in
  let w := press_run GCP Demo6 in
  let o := script w init_state ∅ in
  out_generated o = true ∧
  generate_assets ∅ (assets_dir_of Demo6) Demo6 = Ok (out_fs o).
Proof.
  intros pd. cbv zeta.
  apply (script_runs_on_regenerated_assets (press_run GCP Demo6) init_state ∅);
    vm_compute; reflexivity.
Defined.

(** ** Runs of the script on concrete sessions *)

(** C2 on the code: the baseline of seven scenarios fails at its failing
    step, but the baseline of the missing-dependency scenario passes. Its
    [requirements.txt] holds the comment "# numpy intentionally missing",
    and the check looks for the substring "numpy". *)
Theorem baseline_verdicts :
  baseline_verdict <$> all_keys =
  [Ok (true, "numpy present");
   Ok (false, "Invalid COPY directive");
   Ok (false, "env keys missing");
   Ok (false, "NaNs present");
   Ok (false, "p90=1400ms");
   Ok (false, "public_write=true");
   Ok (false, "leak flag true");
   Ok (false, "target missing")].
Proof. vm_compute. reflexivity. Qed.

(** C1 on the code: a run request regenerates the assets. After the first
    run of the Dockerfile demo fails at step 6, the fix button calls the
    mitigation, which succeeds and would make step 6 pass; the run it
    triggers first regenerates the assets, so the Dockerfile is the
    baseline one again and step 6 fails as before. *)
Theorem fix_is_undone_by_regeneration {pd : Pandas} :
  let dir := assets_dir_of Demo2 in
  let o1 := script (press_run AWS Demo2) init_state ∅ in
  let o2 := script (press_fix AWS Demo2) (out_session o1) (out_fs o1) in
  last_failure (out_session o1) = Some (6, "Invalid COPY directive") ∧
  out_calls o2 = [(true, "Fixed Dockerfile COPY directive")] ∧
  check_step_truth (apply_mitigation (out_fs o1) dir Demo2).1 dir Demo2 6 =
    (true, "Dockerfile COPY valid") ∧
  out_generated o2 = true ∧
  out_fs o2 !! FS.join dir "Dockerfile" =
    Some (File (Text ("FROM python:3.11-slim" +:+ LF +:+ "WORKDIR /app" +:+ LF +:+
                      "COPY." +:+ LF +:+
                      "RUN pip install -r requirements.txt" +:+ LF))) ∧
  debug_attempts (out_session o2) = 1 ∧
  last_failure (out_session o2) = Some (6, "Invalid COPY directive").
Proof. vm_compute. split_and!; reflexivity. Qed.

(** C4 on the code: choosing another demo leaves the attempt count as it
    is. After two fixes on the Dockerfile demo the count is 2; it is still
    2 once the env demo is selected, and the fix button is then refused
    there without a call of the mitigation. *)
Theorem reselection_keeps_attempts {pd : Pandas} :
  let '(ss, fs, crash) :=
    interact [press_run AWS Demo2; press_fix AWS Demo2; press_fix AWS Demo2;
              select AWS Demo3] init_state ∅ in
  let o := script (press_fix AWS Demo3) ss fs in
  crash = None ∧
  demo_key ss = Some Demo3 ∧
  debug_attempts ss = 2 ∧
  out_calls o = [] ∧
  out_ui o =
    [Error "Debug attempts exhausted (max 2). Reset by choosing another demo."].
Proof. vm_compute. split_and!; reflexivity. Qed.

(** ** The env check against the spec's reading *)

(** C7 on the code: with an empty [DB_USER] followed by the two other
    keys, the check passes although the spec's condition does not hold.
    The text after "DB_USER=" that the check strips and measures runs to
    the end of the file, not to the end of the line; on the generated
    baseline too the empty [DB_USER] counts as set. *)
Theorem env_check_accepts_empty_value :
  let env := "DB_USER=" +:+ LF +:+ "DB_PASS=demo123" +:+ LF +:+
             "DB_HOST=localhost" +:+ LF in
  let fs : filesystem := {[ FS.join "/d" ".env" := File (Text env) ]} in
  let generated := "DB_USER=" +:+ LF +:+ "# DB_PASS missing" +:+ LF +:+
                   "DB_HOST=" +:+ LF in
  Spec.env_value "DB_USER" env = Some "" ∧
  Spec.env_complete env = false ∧
  has_key "DB_USER=" env = Ok true ∧
  check_step_truth fs "/d" Demo3 10 = (true, "env ok") ∧
  Spec.env_value "DB_USER" generated = Some "" ∧
  has_key "DB_USER=" generated = Ok true.
Proof. vm_compute. split_and!; reflexivity. Qed.

(** * Further properties *)

(** ** The outcome of a run *)

Ltac range_cases :=
  repeat match goal with
         | |- context [?a <=? ?b] => destruct (Z.leb_spec a b)
         | |- context [?a <? ?b] => destruct (Z.ltb_spec a b)
         end;
  cbn [andb negb]; try lia.

Lemma run_steps_logs steps i fs dir key ss :
  last_failure ss = None →
  let f := failure_step (SCENARIOS key) in
  let verdict := check_step_truth fs dir key f in
  let ss' := (run_steps (enumerate i steps) fs dir key ss).1 in
  last_run_logs ss' = (last_run_logs ss ++ expected_logs f i steps verdict)%list ∧
  last_failure ss' =
    if (i <=? f) && (f <? i + Z.of_nat (length steps)) && negb verdict.1
    then Some (f, verdict.2) else None.
Proof.
  cbv zeta. revert i ss. induction steps as [| step rest IH]; intros i ss Hnone.
  - cbn [enumerate run_steps fst]. unfold expected_logs. cbn [length].
    range_cases; cbn; by rewrite app_nil_r.
  - cbn [enumerate run_steps].
    set (f := failure_step (SCENARIOS key)) in *.
    destruct (decide (i = f)) as [-> | Hne].
    + (* the failing step *)
      destruct (check_step_truth fs dir key f) as [[] detail] eqn:Hcheck;
        cbn [fst snd].
      * specialize (IH (f + 1) (set_last_run_logs
                           (last_run_logs ss ++ [ok_line step detail])%list ss) Hnone).
        fold (ok_line step detail).
        destruct (run_steps (enumerate (f + 1) rest) fs dir key _) as [s u].
        cbn [fst] in *. destruct IH as [Hlogs Hfail].
        rewrite Hlogs, Hfail. cbn [set_last_run_logs last_run_logs].
        unfold expected_logs. cbn [length fst snd]. rewrite Z.sub_diag.
        range_cases. cbn. by rewrite <- app_assoc.
      * unfold expected_logs. cbn [length fst snd]. rewrite Z.sub_diag.
        range_cases. cbn. done.
    + rewrite (check_step_truth_other fs dir key i Hne).
      specialize (IH (i + 1) (set_last_run_logs
                         (last_run_logs ss ++ [ok_line step "OK"])%list ss) Hnone).
      fold (ok_line step "OK").
      destruct (run_steps (enumerate (i + 1) rest) fs dir key _) as [s u].
      cbn [fst] in *. destruct IH as [Hlogs Hfail].
      rewrite Hlogs, Hfail. cbn [set_last_run_logs last_run_logs length].
      split.
      * rewrite <- app_assoc. f_equal. unfold expected_logs. cbn [length].
        range_cases; try done.
        replace (Z.to_nat (f - i)) with (S (Z.to_nat (f - (i + 1)))) by lia.
        done.
      * range_cases; done.
Qed.

Lemma run_steps_stops steps fs dir key ss f :
  last_failure ss = None →
  last_failure (run_steps steps fs dir key ss).1 = Some f →
  running (run_steps steps fs dir key ss).1 = false.
Proof.
  revert ss. induction steps as [| [idx step] rest IH]; intros ss Hnone Hfail.
  - cbn in Hfail. congruence.
  - cbn [run_steps] in *.
    destruct (check_step_truth fs dir key idx) as [[] detail].
    + specialize (IH (set_last_run_logs
                        (last_run_logs ss ++ ["✅ " +:+ step +:+ ": OK (" +:+ detail +:+ ")"])%list ss)
                     Hnone).
      destruct (run_steps rest fs dir key _) as [s u]. by apply IH.
    + done.
Qed.

Lemma failure_step_in_range key : 1 <= failure_step (SCENARIOS key) <= 20.
Proof. destruct key; simpl; lia. Qed.

Lemma run_pipeline_spec (fs : filesystem) (dir : string)
    (key : scenario_key) (ss : session) :
  let f := failure_step (SCENARIOS key) in
  let verdict := check_step_truth fs dir key f in
  let ss' := (run_pipeline fs dir key ss).1 in
  pipeline_completed ss' = verdict.1 ∧
  last_failure ss' = (if verdict.1 then None else Some (f, verdict.2)) ∧
  last_run_logs ss' = expected_logs f 1 STEPS verdict ∧
  length (last_run_logs ss') = (if verdict.1 then 20%nat else Z.to_nat f) ∧
  running ss' = false ∧
  debug_attempts ss' = debug_attempts ss.
Proof.
  cbv zeta. unfold run_pipeline.
  set (ss0 := set_last_failure None _).
  pose proof (run_steps_logs STEPS 1 fs dir key ss0 eq_refl) as [Hlogs Hfail].
  pose proof (run_steps_keeps (enumerate 1 STEPS) fs dir key ss0) as (Hatt & Hdone & _).
  pose proof (failure_step_in_range key) as Hrange.
  cbv zeta in Hlogs, Hfail.
  set (f := failure_step (SCENARIOS key)) in *.
  set (verdict := check_step_truth fs dir key f) in *.
  destruct (run_steps (enumerate 1 STEPS) fs dir key ss0) as [s u] eqn:Hrun.
  cbn [fst] in *.
  change (last_run_logs ss0) with (@nil string) in Hlogs. cbn [app] in Hlogs.
  change (length STEPS) with 20%nat in Hfail.
  assert ((1 <=? f) && (f <? 1 + Z.of_nat 20) = true)%bool as Hin
    by (apply andb_true_iff; split; [apply Z.leb_le | apply Z.ltb_lt]; lia).
  rewrite Hin in Hfail. cbn [andb] in Hfail.
  assert (length (expected_logs f 1 STEPS verdict) =
          if verdict.1 then 20%nat else Z.to_nat f) as Hlen.
  { clear -Hrange. unfold f in *. destruct verdict as [[] detail];
      destruct key; vm_compute; reflexivity. }
  destruct (verdict.1) eqn:Hpass; cbn [negb] in Hfail; rewrite Hfail.
  - cbn [fst set_running set_pipeline_completed pipeline_completed last_failure
         last_run_logs running debug_attempts].
    rewrite Hlogs, Hlen. split_and!; done.
  - cbn [fst]. rewrite Hlogs, Hlen, Hdone, Hfail.
    split_and!; try done.
    pose proof (run_steps_stops (enumerate 1 STEPS) fs dir key ss0
                  (f, verdict.2) eq_refl) as Hstop.
    rewrite Hrun in Hstop. by apply Hstop.
Qed.

(** X4: the whole outcome of a run is fixed by the one check at the
    scenario's failing step. The pipeline is marked completed exactly when
    that check passes; the failure record is that step with the check's
    detail when it does not; and the log is one OK line per step before
    the failing step, then the line of the failing step, then, when it
    passed, one OK line per remaining step. *)
Theorem run_pipeline_result (fs : filesystem) (dir : string)
    (key : scenario_key) (ss : session) :
  let f := failure_step (SCENARIOS key) in
  let verdict := check_step_truth fs dir key f in
  let ss' := (run_pipeline fs dir key ss).1 in
  pipeline_completed ss' = verdict.1 ∧
  last_failure ss' = (if verdict.1 then None else Some (f, verdict.2)) ∧
  last_run_logs ss' = expected_logs f 1 STEPS verdict ∧
  length (last_run_logs ss') = (if verdict.1 then 20%nat else Z.to_nat f) ∧
  running ss' = false ∧
  debug_attempts ss' = debug_attempts ss.
Proof. apply run_pipeline_spec. Qed.

(** ** What [generate_assets] writes and what it leaves *)

Lemma prefix_app s t : String.prefix s (s +:+ t) = true.
Proof.
  induction s as [| c s IH]; [by destruct t |].
  change (String.prefix (String c s) (String c (s +:+ t)) = true).
  cbn [String.prefix]. by destruct (Ascii.ascii_dec c c).
Qed.

Lemma prefix_length s t :
  String.prefix s t = true → (String.length s <= String.length t)%nat.
Proof.
  revert t. induction s as [| c s IH]; intros t; [simpl; lia |].
  destruct t as [| d t]; [done |]. cbn [String.prefix String.length].
  destruct (Ascii.ascii_dec c d); [| done]. intros H%IH. lia.
Qed.

Lemma below_join base name : FS.below base (FS.join base name) = true.
Proof. unfold FS.below, FS.join. rewrite <- string_app_assoc. apply prefix_app. Qed.

Lemma below_longer base q :
  FS.below base q = true → (String.length base < String.length q)%nat.
Proof.
  unfold FS.below. intros H%prefix_length. rewrite length_app in H. simpl in H. lia.
Qed.

Lemma not_below_ancestor base q :
  q ∈ (FS.ancestors base ++ [base])%list → FS.below base q = false.
Proof.
  intros Hq%ancestors_shorter. destruct (FS.below base q) eqn:Hb; [| done].
  apply below_longer in Hb. lia.
Qed.

Lemma rmtree_lookup fs p fs' q :
  FS.rmtree fs p = Ok fs' →
  fs' !! q = if String.eqb p q || FS.below p q then None else fs !! q.
Proof.
  unfold FS.rmtree. destruct (fs !! p) as [[| a] |]; [| done | done].
  intros [= <-]. destruct (String.eqb p q || FS.below p q) eqn:Hin.
  - apply map_lookup_filter_None_2. right. intros x _ HP. cbn [fst] in HP. congruence.
  - destruct (fs !! q) as [x |] eqn:Hq.
    + by apply map_lookup_filter_Some_2.
    + apply map_lookup_filter_None_2. by left.
Qed.

Lemma mkdirs_frame paths (fs fs' : filesystem) q :
  FS.mkdirs paths fs = Ok fs' → q ∉ paths → fs' !! q = fs !! q.
Proof.
  revert fs. induction paths as [| p ps IH]; intros fs Hmk Hq; cbn in Hmk.
  - by injection Hmk as <-.
  - apply not_elem_of_cons in Hq as [Hqp Hqps].
    destruct (fs !! p) as [[| a] |] eqn:Hp; [by apply IH | done |].
    rewrite (IH _ Hmk Hqps). by rewrite lookup_insert_ne.
Qed.


(** One file written into an assets directory that is there. *)
Lemma write_step fs base n a fs' :
  dir_ok fs base → base ≠ "" → slash_free n →
  write fs (FS.join base n) a = Ok fs' →
  fs' = <[FS.join base n := File a]> fs ∧ dir_ok fs' base.
Proof.
  intros Hok Hne Hfree. rewrite write_join by done.
  destruct (fs !! FS.join base n) as [[| ?] |]; intros [= <-];
    (split; [done | by apply dir_ok_insert]).
Qed.

Lemma to_csv_step fs base n df fs' :
  dir_ok fs base → base ≠ "" → slash_free n →
  FS.to_csv fs (FS.join base n) df = Ok fs' →
  fs' = <[FS.join base n := File (Csv df)]> fs ∧ dir_ok fs' base.
Proof.
  intros Hok Hne Hfree. unfold FS.to_csv. rewrite open_write_join by done.
  destruct (fs !! FS.join base n) as [[| ?] |]; intros [= <-];
    (split; [done | by apply dir_ok_insert]).
Qed.

Section Generate.

Variables (fs fs' : filesystem) (base : string) (key : scenario_key).
Hypothesis base_ne : base ≠ "".

(** The steps of a successful generation, taken apart: the directory as
    [makedirs] left it, and the files inserted into it. *)
Lemma generate_steps :
  generate_assets fs base key = Ok fs' →
  ∃ fa fb,
    (if FS.exists_ fs base then FS.rmtree fs base else Ok fs) = Ok fa ∧
    FS.makedirs fa base = Ok fb ∧ dir_ok fb base ∧
    ∃ files : list (string * artifact),
      files.*1 = written_names (s_type (SCENARIOS key)) ∧
      fs' = foldl (λ m na, <[FS.join base na.1 := File na.2]> m) fb files.
Proof.
  unfold generate_assets. intros H.
  destruct (bind_Ok _ _ _ H) as (fa & Hrm & Ha). clear H.
  destruct (bind_Ok _ _ _ Ha) as (fb & Hmk & Hb). clear Ha.
  exists fa, fb. split_and!; [done | done | by eapply makedirs_dir_ok |].
  pose proof (makedirs_dir_ok _ _ _ Hmk) as Hok.
  cbv zeta in Hb.
  destruct (bind_Ok _ _ _ Hb) as (fc & Happ & Hc). clear Hb.
  apply write_step in Happ as [-> Hokc]; [| done | done | done].
  destruct key; cbn [SCENARIOS s_type written_names] in *;
    repeat match goal with
           | H : _ ≫= _ = Ok _ |- _ =>
               let x := fresh "f" in
               let Hx := fresh "Hw" in
               let Hk := fresh "Hk" in
               destruct (bind_Ok _ _ _ H) as (x & Hx & Hk); clear H;
               apply write_step in Hx as [-> ?]; [| done | done | done]
           end;
    repeat match goal with
           | H : write _ _ _ = Ok _ |- _ =>
               apply write_step in H as [-> ?]; [| done | done | done]
           | H : FS.to_csv _ _ _ = Ok _ |- _ =>
               apply to_csv_step in H as [-> ?]; [| done | done | done]
           end;
    first [ eexists [(_, _); (_, _)]; split; reflexivity
          | eexists [(_, _); (_, _); (_, _)]; split; reflexivity ].
Qed.

Lemma foldl_insert_lookup_other (files : list (string * artifact))
    (m : filesystem) q :
  FS.below base q = false →
  foldl (λ m na, <[FS.join base na.1 := File na.2]> m) m files !! q = m !! q.
Proof.
  intros Hq. revert m. induction files as [| [n a] files IH]; intros m; [done |].
  cbn [foldl]. rewrite IH. apply lookup_insert_ne.
  intros <-. by rewrite below_join in Hq.
Qed.

Lemma foldl_insert_lookup_notin (files : list (string * artifact))
    (m : filesystem) q :
  q ∉ (FS.join base <$> files.*1) →
  foldl (λ m na, <[FS.join base na.1 := File na.2]> m) m files !! q = m !! q.
Proof.
  revert m. induction files as [| [n a] files IH]; intros m Hq; [done |].
  cbn [foldl fmap list_fmap fst] in *.
  apply not_elem_of_cons in Hq as [Hne Hq].
  rewrite IH by done. by apply lookup_insert_ne.
Qed.

End Generate.

Lemma generate_assets_untouched (fs fs' : filesystem) (base : string)
    (key : scenario_key) (q : string) :
  base ≠ "" →
  generate_assets fs base key = Ok fs' →
  q ∉ (FS.ancestors base ++ [base])%list →
  FS.below base q = false →
  fs' !! q = fs !! q.
Proof.
  intros Hne Hgen Hq Hbelow.
  destruct (generate_steps fs fs' base key Hne Hgen)
    as (fa & fb & Hrm & Hmk & _ & files & _ & ->).
  rewrite foldl_insert_lookup_other by done.
  rewrite makedirs_nonempty in Hmk by done. rewrite (mkdirs_frame _ _ _ _ Hmk Hq).
  destruct (FS.exists_ fs base); [| by injection Hrm as <-].
  rewrite (rmtree_lookup _ _ _ q Hrm), Hbelow.
  destruct (String.eqb_spec base q) as [<- | _]; [| done].
  destruct Hq. apply elem_of_app. right. by apply list_elem_of_singleton.
Qed.

(** X5: a successful [generate_assets] changes nothing outside its
    directory: every path that is neither the directory, nor a directory
    above it, nor below it holds after the call what it held before. *)
Theorem generate_assets_frame (fs fs' : filesystem) (base : string)
    (key : scenario_key) (q : string) :
  base ≠ "" →
  generate_assets fs base key = Ok fs' →
  q ∉ (FS.ancestors base ++ [base])%list →
  FS.below base q = false →
  fs' !! q = fs !! q.
Proof. apply generate_assets_untouched. Qed.

Lemma generate_assets_frame_witness :
  let fs : filesystem := {[ "/home/notes.txt" := File (Text "keep") ]} in
  match generate_assets fs "/tmp/demo" Demo7 with
  | Ok fs' => fs' !! "/home/notes.txt" = fs !! "/home/notes.txt"
  | Raise _ => False
  end.
Proof.
  cbv zeta.
  destruct (generate_assets _ "/tmp/demo" Demo7) as [fs' |] eqn:Hgen.
  - apply (generate_assets_frame _ fs' "/tmp/demo" Demo7 "/home/notes.txt");
      [done | exact Hgen | | reflexivity].
    apply (bool_decide_unpack _). vm_compute. reflexivity.
  - assert (raises (generate_assets {[ "/home/notes.txt" := File (Text "keep") ]}
                      "/tmp/demo" Demo7) = false) as Hok by (vm_compute; reflexivity).
    rewrite Hgen in Hok. discriminate Hok.
Defined.

Lemma foldl_insert_lookup_file (base : string) (files : list (string * artifact))
    (m : filesystem) q :
  (∃ a, m !! q = Some (File a)) ∨ q ∈ (FS.join base <$> files.*1) →
  ∃ a, foldl (λ m na, <[FS.join base na.1 := File na.2]> m) m files !! q =
       Some (File a).
Proof.
  revert m. induction files as [| [n a] files IH]; intros m Hq.
  - destruct Hq as [Hq | Hq]; [done | by apply not_elem_of_nil in Hq].
  - cbn [foldl fmap list_fmap fst snd] in *. apply IH.
    destruct (decide (q = FS.join base n)) as [-> | Hne].
    + left. exists a. by rewrite lookup_insert_eq.
    + rewrite lookup_insert_ne by done.
      destruct Hq as [Hq | Hq]; [by left | right].
      by apply elem_of_cons in Hq as [? | ?].
Qed.

Lemma generate_clears fs base fa :
  no_orphans fs base →
  (if FS.exists_ fs base then FS.rmtree fs base else Ok fs) = Ok fa →
  empty_below fa base.
Proof.
  intros Horph Hrm q Hq. unfold FS.exists_ in Hrm.
  destruct (fs !! base) as [x |] eqn:Hbase.
  - rewrite (rmtree_lookup _ _ _ q Hrm), Hq. by rewrite orb_true_r.
  - injection Hrm as <-. by apply Horph.
Qed.

(** X6: [generate_assets] replaces its directory. After a successful call
    on a disk without orphan entries, every file it writes for the scenario
    is there as a regular file, and nothing else lies below the directory:
    whatever was there before, a repaired artifact included, is gone. *)
Theorem generate_assets_directory (fs fs' : filesystem) (base : string)
    (key : scenario_key) :
  base ≠ "" →
  no_orphans fs base →
  generate_assets fs base key = Ok fs' →
  (∀ n, n ∈ written_names (s_type (SCENARIOS key)) →
        ∃ a, fs' !! FS.join base n = Some (File a)) ∧
  (∀ q, FS.below base q = true →
        q ∉ (FS.join base <$> written_names (s_type (SCENARIOS key))) →
        fs' !! q = None).
Proof.
  intros Hne Horph Hgen.
  destruct (generate_steps fs fs' base key Hne Hgen)
    as (fa & fb & Hrm & Hmk & _ & files & Hnames & ->).
  rewrite <- Hnames. split.
  - intros n Hn. apply foldl_insert_lookup_file. right.
    by apply list_elem_of_fmap_2.
  - intros q Hbelow Hq. rewrite foldl_insert_lookup_notin by done.
    rewrite makedirs_nonempty in Hmk by done. rewrite (mkdirs_frame _ _ _ q Hmk).
    + by apply (generate_clears fs base fa).
    + intros Hin%not_below_ancestor. congruence.
Qed.

Lemma generate_assets_directory_witness :
  let dir := assets_dir_of Demo2 in
  let fs : filesystem :=
    {[ dir := Dir; FS.join dir "Dockerfile" := File (Text "COPY . /app");
       FS.join dir "stale.log" := File (Text "old") ]} in
  match generate_assets fs dir Demo2 with
  | Ok fs' =>
      (∀ n, n ∈ ["app.py"; "Dockerfile"; "requirements.txt"] →
            ∃ a, fs' !! FS.join dir n = Some (File a)) ∧
      (∀ q, FS.below dir q = true →
            q ∉ (FS.join dir <$> ["app.py"; "Dockerfile"; "requirements.txt"]) →
            fs' !! q = None)
  | Raise _ => False
  end.
Proof.
  cbv zeta.
  set (fs := ({[ _ := Dir; _ := _; _ := _ ]} : filesystem)).
  destruct (generate_assets fs _ Demo2) as [fs' |] eqn:Hgen.
  - apply (generate_assets_directory fs fs' (assets_dir_of Demo2) Demo2);
      [done | | exact Hgen].
    intros Habsent. by vm_compute in Habsent.
  - assert (raises (generate_assets fs (assets_dir_of Demo2) Demo2) = false) as Hok
      by (vm_compute; reflexivity).
    rewrite Hgen in Hok. discriminate Hok.
Defined.





Lemma baseline_pass_flag key :
  match baseline key with
  | Ok g =>
      passed (check_step_truth g (assets_dir_of key) key
                (failure_step (SCENARIOS key))) =
      fresh_pass_flag (s_type (SCENARIOS key))
  | Raise _ => False
  end.
Proof. destruct key; vm_compute; reflexivity. Qed.

Lemma generated_pass_flag (fs fs' : filesystem) (base : string)
    (key : scenario_key) :
  base ≠ "" →
  generate_assets fs base key = Ok fs' →
  passed (check_step_truth fs' base key (failure_step (SCENARIOS key))) =
  fresh_pass_flag (s_type (SCENARIOS key)).
Proof.
  intros Hne Hgen. pose proof (baseline_pass_flag key) as Hflag.
  destruct (baseline key) as [g |] eqn:Hg; [| done]. unfold baseline in Hg.
  rewrite <- Hflag. eapply check_view.
  eapply generate_view; [exact Hne | apply assets_dir_of_nonempty | done | done].
Qed.

(** X8: on the assets [generate_assets] has just written, in any directory
    and whatever the disk held before, the check at the failing step fails
    for every scenario type but [missing_dependency], for which it
    passes. *)
Theorem generated_assets_verdict (fs fs' : filesystem) (base : string)
    (key : scenario_key) :
  base ≠ "" →
  generate_assets fs base key = Ok fs' →
  passed (check_step_truth fs' base key (failure_step (SCENARIOS key))) =
  fresh_pass_flag (s_type (SCENARIOS key)).
Proof. apply generated_pass_flag. Qed.

Lemma generated_assets_verdict_witness :
  let fs : filesystem := {[ "/srv" := Dir ]} in
  match generate_assets fs "/srv/demo5" Demo5 with
  | Ok fs' => passed (check_step_truth fs' "/srv/demo5" Demo5 15) = false
  | Raise _ => False
  end.
Proof.
  cbv zeta.
  destruct (generate_assets _ "/srv/demo5" Demo5) as [fs' |] eqn:Hgen.
  - by apply (generated_assets_verdict {[ "/srv" := Dir ]} fs' "/srv/demo5" Demo5).
  - assert (raises (generate_assets {[ "/srv" := Dir ]} "/srv/demo5" Demo5) = false)
      as Hok by (vm_compute; reflexivity).
    rewrite Hgen in Hok. discriminate Hok.
Defined.

(** ** Substring search and replacement *)

Lemma prefix_nil s : String.prefix "" s = true.
Proof. by destruct s. Qed.

Lemma prefix_cons a p c s :
  String.prefix (String a p) (String c s) = true ↔ a = c ∧ String.prefix p s = true.
Proof.
  cbn [String.prefix]. destruct (Ascii.ascii_dec a c); [| split; [done | by intros [? _]]].
  by split; [| intros [_ ?]].
Qed.

Lemma contains_cons sub c s :
  contains sub (String c s) = String.prefix sub (String c s) || contains sub s.
Proof. done. Qed.

Lemma contains_app_r sub s t : contains sub t = true → contains sub (s +:+ t) = true.
Proof.
  intros Ht. induction s as [| c s IH]; [done |].
  change (contains sub (String c (s +:+ t)) = true).
  rewrite contains_cons, IH. apply orb_true_r.
Qed.

Section Replace.

Variables (o h : Ascii.ascii) (otail new' : string).

Local Abbreviation old := (String o otail).
Local Abbreviation new := (String h new').

(** The head of the replacement never occurs in the tail of the pattern,
    and the replacement followed by any text opens no occurrence of the
    pattern that the text does not hold already. *)
Hypothesis head_fresh : no_char h otail = true.
Hypothesis new_closed : ∀ X, contains old (new +:+ X) = contains old X.

Lemma prefix_replace_aux p s :
  no_char h p = true →
  String.prefix p (replace_aux old new 0 s) = true → String.prefix p s = true.
Proof.
  revert s. induction p as [| a p IH]; intros s Hno Hpre; [apply prefix_nil |].
  cbn [no_char] in Hno. apply andb_true_iff in Hno as [Hah Hno].
  destruct s as [| c s]; [done |]. cbn [replace_aux] in Hpre.
  destruct (String.prefix old (String c s)).
  - change (String.prefix (String a p)
              (String h (new' +:+ replace_aux old new (String.length old - 1) s)) = true)
      in Hpre.
    apply prefix_cons in Hpre as [-> _]. by rewrite Ascii.eqb_refl in Hah.
  - apply prefix_cons in Hpre as [-> Hpre]. apply prefix_cons. split; [done |].
    by apply IH.
Qed.

Lemma replace_aux_removes s k : contains old (replace_aux old new k s) = false.
Proof.
  revert k. induction s as [| c s IH]; intros k; [done |].
  cbn [replace_aux]. destruct k as [| k]; [| apply IH].
  destruct (String.prefix old (String c s)) eqn:Hpre.
  - rewrite new_closed. apply IH.
  - rewrite contains_cons, IH, orb_false_r.
    destruct (String.prefix old (String c (replace_aux old new 0 s))) eqn:Hpre';
      [| done].
    apply prefix_cons in Hpre' as [Heq Hpre']. subst c.
    apply prefix_replace_aux in Hpre'; [| done].
    assert (String.prefix old (String o s) = true) by (by apply prefix_cons).
    congruence.
Qed.


End Replace.

(** After the Dockerfile repair no text holds the malformed directive. *)
Lemma dockerfile_replace_removes txt :
  contains "COPY." (replace "COPY." ("COPY . /app" +:+ LF) txt) = false.
Proof.
  unfold replace.
  apply replace_aux_removes; [done |].
  intros X. vm_compute. reflexivity.
Qed.

(** After the leak repair no text holds the leak flag set. *)
Lemma leak_replace_removes txt :
  contains "LEAK_DEMO = True"
    (replace "LEAK_DEMO = True" ("LEAK_DEMO = False" +:+ LF +:+ "# fixed") txt) = false.
Proof.
  unfold replace.
  apply replace_aux_removes; [done |].
  intros X. vm_compute. reflexivity.
Qed.

(** ** Imputation of missing cells *)

Section Fill.

Context {A : Type}.
Implicit Types cells : list (option A).

Lemma all_missing_spec cells :
  Frame.is_none (head (omap id cells)) = forallb Frame.is_none cells.
Proof. induction cells as [| [x |] cells IH]; done. Qed.

Lemma fillna_no_missing (x : A) cells :
  existsb Frame.is_none (Frame.fillna (Some x) cells) = false.
Proof. induction cells as [| [y |] cells IH]; done. Qed.

Lemma ffill_from_some (x : A) cells :
  existsb Frame.is_none (Frame.ffill_from (Some x) cells) = false.
Proof. revert x. induction cells as [| [y |] cells IH]; intros x; cbn; auto. Qed.

Lemma bfill_no_missing cells :
  existsb Frame.is_none cells = false → Frame.bfill cells = cells.
Proof.
  induction cells as [| [y |] cells IH]; [done | | done].
  cbn. intros H. by rewrite IH.
Qed.

Lemma bfill_all_missing cells :
  forallb Frame.is_none cells = true → Frame.bfill cells = cells.
Proof.
  induction cells as [| [y |] cells IH]; [done | done |].
  cbn. intros H. rewrite IH by done. by destruct cells as [| [z |] cells'].
Qed.

Lemma ffill_all_missing cells :
  forallb Frame.is_none cells = true → Frame.ffill cells = cells.
Proof.
  unfold Frame.ffill. induction cells as [| [y |] cells IH]; [done | done |].
  cbn. intros H. by rewrite IH.
Qed.

(** A missing cell in front of cells without a gap takes the first value. *)
Lemma bfill_leading cells :
  existsb Frame.is_none cells = false → cells ≠ [] →
  existsb Frame.is_none (Frame.bfill (None :: cells)) = false.
Proof.
  intros Hno Hne. cbn [Frame.bfill]. rewrite bfill_no_missing by done.
  destruct cells as [| [y |] cells']; done.
Qed.

Lemma bfill_ffill_no_missing cells :
  forallb Frame.is_none cells = false →
  existsb Frame.is_none (Frame.bfill (Frame.ffill cells)) = false.
Proof.
  unfold Frame.ffill. induction cells as [| [y |] cells IH]; [done | |].
  - intros _. cbn [Frame.ffill_from].
    rewrite bfill_no_missing; cbn; by rewrite ffill_from_some.
  - cbn [forallb Frame.is_none andb Frame.ffill_from]. intros H.
    specialize (IH H). cbn [Frame.bfill].
    destruct (Frame.bfill (Frame.ffill_from None cells)) as [| [z |] r] eqn:Hr.
    + destruct cells as [| [y |] cells']; [done | done |]. cbn in Hr.
      by destruct (Frame.bfill (Frame.ffill_from None cells')).
    + done.
    + done.
Qed.

End Fill.

Lemma mean_all_missing {pd : Pandas} cells :
  forallb Frame.is_none cells = true → Frame.mean cells = None.
Proof.
  intros Hall. unfold Frame.mean.
  pose proof (all_missing_spec cells) as Hhead. rewrite Hall in Hhead.
  by destruct (omap id cells).
Qed.

(** After the imputation a column has a missing cell exactly when it could
    not be filled. *)
Lemma impute_isna {pd : Pandas} c c' :
  impute c = Ok c' → Frame.col_isna_any c' = col_unfillable c.
Proof.
  destruct c as [cells | cells]; cbn [impute].
  - intros [= <-]. cbn [Frame.col_isna_any col_unfillable].
    destruct (Frame.mean cells) as [v |].
    + rewrite fillna_no_missing. cbn [Frame.is_none]. by rewrite andb_false_r.
    + cbn [Frame.is_none Frame.fillna]. by rewrite andb_true_r.
  - destruct fillna_method_error; [done |]. intros [= <-].
    cbn [Frame.col_isna_any col_unfillable].
    destruct (forallb Frame.is_none cells) eqn:Hall.
    + rewrite ffill_all_missing, bfill_all_missing by done.
      clear -Hall. induction cells as [| [x |] cells IH]; done.
    + by rewrite bfill_ffill_no_missing.
Qed.

Lemma impute_frame_cons {pd : Pandas} name c df df' :
  impute_frame ((name, c) :: df) = Ok df' →
  ∃ c' rest, impute c = Ok c' ∧ impute_frame df = Ok rest ∧ df' = (name, c') :: rest.
Proof.
  cbn [impute_frame]. destruct (impute c) as [c' |]; [| done].
  cbn [mbind result_bind]. destruct (impute_frame df) as [rest |]; [| done].
  cbn [mbind result_bind]. intros [= <-]. by exists c', rest.
Qed.

Lemma impute_frame_isna {pd : Pandas} (df df' : DataFrame) :
  impute_frame df = Ok df' →
  Frame.isna_any df' = existsb (λ nc, col_unfillable nc.2) df.
Proof.
  unfold Frame.isna_any. revert df'.
  induction df as [| [n c] df IH]; intros df' Hdf.
  - by injection Hdf as <-.
  - apply impute_frame_cons in Hdf as (c' & rest & Hc & Hrest & ->).
    cbn [existsb fst snd]. by rewrite (impute_isna c c' Hc), (IH rest Hrest).
Qed.

(** ** The mitigation on any assets *)

Lemma open_write_result fs p a fs' :
  FS.open_write fs p a = Ok fs' → fs' !! p = Some (File a).
Proof.
  unfold FS.open_write.
  destruct (fs !! p) as [[| ?] |]; [done | |];
    (destruct (fs !! FS.dirname p) as [[| ?] |]; [| done | done]);
    intros [= <-]; apply lookup_insert_eq.
Qed.

Lemma write_result fs p a fs' :
  write fs p a = Ok fs' → fs' !! p = Some (File a).
Proof.
  unfold write. intros H. destruct (bind_Ok _ _ _ H) as (fs1 & _ & Hw).
  by apply open_write_result in Hw.
Qed.

Lemma read_text_Ok fs p s :
  FS.read_text fs p = Ok s ↔ fs !! p = Some (File (Text s)).
Proof.
  unfold FS.read_text, FS.open_read.
  destruct (fs !! p) as [[| []] |]; cbn; split; congruence.
Qed.

Lemma read_json_Ok fs p v :
  FS.read_json fs p = Ok v ↔ fs !! p = Some (File (Json v)).
Proof.
  unfold FS.read_json, FS.open_read.
  destruct (fs !! p) as [[| []] |]; cbn; split; congruence.
Qed.

Lemma read_yaml_Ok fs p v :
  FS.read_yaml fs p = Ok v ↔ fs !! p = Some (File (Yaml v)).
Proof.
  unfold FS.read_yaml, FS.open_read.
  destruct (fs !! p) as [[| []] |]; cbn; split; congruence.
Qed.

Lemma read_csv_Ok fs p df :
  FS.read_csv fs p = Ok df ↔ fs !! p = Some (File (Csv df)).
Proof.
  unfold FS.read_csv, FS.open_read.
  destruct (fs !! p) as [[| []] |]; cbn; split; congruence.
Qed.

Lemma apply_mitigation_ok_inv {pd : Pandas} fs base key fs' msg :
  apply_mitigation fs base key = (fs', (true, msg)) →
  apply_mitigation_body fs base key = Ok fs'.
Proof.
  unfold apply_mitigation. destruct (apply_mitigation_body fs base key); [| done].
  by intros [= <- _].
Qed.

Lemma check_at_failure_step fs base key :
  check_step_truth fs base key (failure_step (SCENARIOS key)) =
  match check_step_body fs base key (failure_step (SCENARIOS key)) with
  | Ok verdict => verdict
  | Raise e => (false, "check error: " +:+ str_exn e)
  end.
Proof. unfold check_step_truth. by rewrite Z.ltb_irrefl. Qed.

Lemma dict_get_set k v d : PyVal.dict_get k (PyVal.dict_set k v d) = Some v.
Proof.
  induction d as [| [k' v'] d IH]; cbn.
  - by rewrite String.eqb_refl.
  - destruct (String.eqb k k') eqn:Heq; cbn; by rewrite ?String.eqb_refl, ?Heq.
Qed.

Lemma dict_get_set_ne k k' v d :
  k ≠ k' → PyVal.dict_get k' (PyVal.dict_set k v d) = PyVal.dict_get k' d.
Proof.
  intros Hne. induction d as [| [k0 v0] d IH]; cbn.
  - destruct (String.eqb_spec k' k); [congruence | done].
  - destruct (String.eqb_spec k k0) as [<- | Hk]; cbn.
    + destruct (String.eqb_spec k' k); [congruence | done].
    + by destruct (String.eqb k' k0).
Qed.

Lemma has_column_set name col df :
  Frame.has_column name (Frame.set_column name col df) = true.
Proof.
  unfold Frame.has_column. induction df as [| [n c] df IH]; cbn.
  - by rewrite String.eqb_refl.
  - destruct (String.eqb name n) eqn:Heq; cbn; by rewrite Heq.
Qed.

Lemma has_column_get name df :
  Frame.has_column name df = true → ∃ c, Frame.get_column name df = Some c.
Proof.
  unfold Frame.has_column. induction df as [| [n c] df IH]; [done |].
  cbn. destruct (String.eqb name n); [by eexists | done].
Qed.

(** X9: a mitigation that reports success repairs the assets, whatever
    they held, as long as they are repairable: the dependency check's two
    files read as text, and every column of the data set with a gap has a
    fill value. The check at the failing step then passes. *)
Theorem mitigation_repairs {pd : Pandas} (fs fs' : filesystem) (base : string)
    (key : scenario_key) (msg : string) :
  repairable fs base key →
  apply_mitigation fs base key = (fs', (true, msg)) →
  passed (check_step_truth fs' base key (failure_step (SCENARIOS key))) = true.
Proof.
  intros Hrep Hmit%apply_mitigation_ok_inv.
  rewrite check_at_failure_step.
  unfold repairable, check_step_body, apply_mitigation_body in *.
  rewrite Z.eqb_refl in *. cbn [negb] in *.
  destruct key; cbn [SCENARIOS s_type] in *; cbv zeta in *.
  - (* missing_dependency *)
    destruct (FS.read_text fs (FS.join base "requirements.txt")) as [req |] eqn:Hreq;
      [| done].
    destruct (FS.read_text fs (FS.join base "model.py")) as [code |] eqn:Hcode;
      [| done].
    apply read_text_Ok in Hreq, Hcode. unfold FS.open_append in Hmit.
    rewrite Hreq in Hmit. injection Hmit as <-.
    assert (FS.join base "requirements.txt" ≠ FS.join base "model.py") as Hne
      by (intros Heq%join_inj; discriminate Heq).
    rewrite (proj2 (read_text_Ok _ _ _) (lookup_insert_eq _ _ _)).
    cbn [mbind result_bind].
    rewrite (proj2 (read_text_Ok _ _ code)) by (by rewrite lookup_insert_ne).
    cbn [mbind result_bind passed fst].
    rewrite contains_app_r by (by vm_compute). done.
  - (* dockerfile_syntax *)
    destruct (bind_Ok _ _ _ Hmit) as (txt & _ & Hw). apply write_result in Hw.
    rewrite (proj2 (read_text_Ok _ _ _) Hw). cbn [mbind result_bind passed fst].
    by rewrite dockerfile_replace_removes.
  - (* env_missing *)
    apply write_result in Hmit. rewrite (proj2 (read_text_Ok _ _ _) Hmit).
    by vm_compute.
  - (* null_values *)
    destruct (bind_Ok _ _ _ Hmit) as (df & Hread & Hmit').
    destruct (bind_Ok _ _ _ Hmit') as (df' & Hfill & Hw).
    apply read_csv_Ok in Hread. apply open_write_result in Hw.
    rewrite (proj2 (read_csv_Ok _ _ _) Hw). cbn [mbind result_bind passed fst].
    by rewrite (impute_frame_isna df df' Hfill), (Hrep df Hread).
  - (* high_latency *)
    destruct (bind_Ok _ _ _ Hmit) as (prof & _ & Hw).
    destruct prof; try done. apply write_result in Hw.
    rewrite (proj2 (read_json_Ok _ _ _) Hw). cbn [mbind result_bind].
    by rewrite dict_get_set.
  - (* public_bucket *)
    destruct (bind_Ok _ _ _ Hmit) as (policy & _ & Hw).
    destruct policy; try done. apply write_result in Hw.
    rewrite (proj2 (read_yaml_Ok _ _ _) Hw). cbn [mbind result_bind].
    by rewrite dict_get_set.
  - (* memory_leak *)
    destruct (bind_Ok _ _ _ Hmit) as (txt & _ & Hw). apply write_result in Hw.
    rewrite (proj2 (read_text_Ok _ _ _) Hw). cbn [mbind result_bind passed fst].
    by rewrite leak_replace_removes.
  - (* schema_drift *)
    destruct (bind_Ok _ _ _ Hmit) as (df & _ & Hw). apply open_write_result in Hw.
    rewrite (proj2 (read_csv_Ok _ _ _) Hw). cbn [mbind result_bind passed fst].
    destruct (Frame.has_column "target" df) eqn:Htarget.
    + by rewrite andb_false_r.
    + rewrite andb_true_r. cbn [negb].
      destruct (Frame.has_column "label" df) eqn:Hlabel; [| apply has_column_set].
      destruct (has_column_get _ _ Hlabel) as [label ->]. apply has_column_set.
Qed.

Lemma mitigation_repairs_witness :
  let pd := pandas_3 in
  let fs : filesystem :=
    {[ "/d" := Dir;
       FS.join "/d" "Dockerfile" :=
         File (Text ("FROM scratch" +:+ LF +:+ "COPY." +:+ LF +:+ "COPY.COPY.")) ]} in
  let r := apply_mitigation fs "/d" Demo2 in
  r.2.1 = true ∧ passed (check_step_truth r.1 "/d" Demo2 6) = true.
Proof.
  intros pd. cbv zeta.
  set (fs := ({[ _ := Dir; _ := _ ]} : filesystem)).
  assert ((apply_mitigation fs "/d" Demo2).2.1 = true) as Hok
    by (vm_compute; reflexivity).
  destruct (apply_mitigation fs "/d" Demo2) as [fs' [ok msg]] eqn:Hmit.
  cbn [fst snd] in *. subst ok. split; [done |].
  by apply (mitigation_repairs fs fs' "/d" Demo2 msg).
Defined.

(** X10: after a successful mitigation of [data.csv] the check at the
    failing step passes exactly when the imputation could fill every
    column. A numeric column with a gap whose mean is NaN, and a column of
    dtype object without a value, are left as they were: the mitigation
    reports success and the check still fails. *)
Theorem imputation_verdict {pd : Pandas} (fs fs' : filesystem) (base : string)
    (key : scenario_key) (df : DataFrame) (msg : string) :
  s_type (SCENARIOS key) = null_values →
  fs !! FS.join base "data.csv" = Some (File (Csv df)) →
  apply_mitigation fs base key = (fs', (true, msg)) →
  passed (check_step_truth fs' base key (failure_step (SCENARIOS key))) =
  negb (existsb (λ nc, col_unfillable nc.2) df).
Proof.
  intros Hty Hdf Hmit%apply_mitigation_ok_inv.
  rewrite check_at_failure_step.
  unfold check_step_body, apply_mitigation_body in *.
  rewrite Z.eqb_refl, Hty in *. cbn [negb] in *. cbv zeta in *.
  rewrite (proj2 (read_csv_Ok _ _ _) Hdf) in Hmit. cbn [mbind result_bind] in Hmit.
  destruct (bind_Ok _ _ _ Hmit) as (df' & Hfill & Hw).
  apply open_write_result in Hw.
  rewrite (proj2 (read_csv_Ok _ _ _) Hw). cbn [mbind result_bind passed fst].
  by rewrite (impute_frame_isna df df' Hfill).
Qed.

Lemma imputation_verdict_witness :
  let pd := pandas_3 in
  let df : DataFrame :=
    [("amount", NumCol [None; None]);
     ("score", NumCol [Some (1 # 1)%Q; None])] in
  let fs : filesystem :=
    {[ "/d" := Dir; FS.join "/d" "data.csv" := File (Csv df) ]} in
  let r := apply_mitigation fs "/d" Demo4 in
  r.2.1 = true ∧ passed (check_step_truth r.1 "/d" Demo4 12) = false.
Proof.
  cbv zeta.
  set (df := [("amount", NumCol [None; None]);
              ("score", NumCol [Some (1 # 1)%Q; None])]).
  set (fs := ({[ _ := Dir; _ := _ ]} : filesystem)).
  assert ((apply_mitigation (pd := pandas_3) fs "/d" Demo4).2.1 = true) as Hok
    by (vm_compute; reflexivity).
  destruct (apply_mitigation (pd := pandas_3) fs "/d" Demo4) as [fs' [ok msg]] eqn:Hmit.
  cbn [fst snd] in *. subst ok. split; [done |].
  by apply (imputation_verdict (pd := pandas_3) fs fs' "/d" Demo4 df msg).
Defined.

Section FillCells.

Context {A : Type}.
Implicit Types cells : list (option A).

Lemma fillna_lookup_present v cells i (x : A) :
  cells !! i = Some (Some x) → Frame.fillna v cells !! i = Some (Some x).
Proof.
  intros Hi. destruct v as [y |]; [| done]. cbn [Frame.fillna].
  by rewrite list_lookup_fmap, Hi.
Qed.

Lemma fillna_lookup_missing (y : A) cells i :
  cells !! i = Some None → Frame.fillna (Some y) cells !! i = Some (Some y).
Proof. intros Hi. cbn [Frame.fillna]. by rewrite list_lookup_fmap, Hi. Qed.

Lemma fillna_length v cells : length (Frame.fillna v cells) = length cells.
Proof. destruct v; [apply length_fmap | done]. Qed.

Lemma ffill_from_lookup_present last cells i (x : A) :
  cells !! i = Some (Some x) → Frame.ffill_from last cells !! i = Some (Some x).
Proof.
  revert last i. induction cells as [| [y |] cells IH]; intros last [| i] Hi;
    cbn in *; try done; by apply IH.
Qed.

Lemma ffill_from_length last cells :
  length (Frame.ffill_from last cells) = length cells.
Proof.
  revert last. induction cells as [| [y |] cells IH]; intros last; cbn;
    by rewrite ?IH.
Qed.

Lemma bfill_length cells : length (Frame.bfill cells) = length cells.
Proof.
  induction cells as [| [y |] cells IH]; cbn; [done | by rewrite IH |].
  destruct (Frame.bfill cells); cbn in *; by rewrite <- ?IH.
Qed.

Lemma bfill_lookup_present cells i (x : A) :
  cells !! i = Some (Some x) → Frame.bfill cells !! i = Some (Some x).
Proof.
  revert i. induction cells as [| [y |] cells IH]; intros [| i] Hi; cbn in *;
    try done.
  - by apply IH.
  - apply IH in Hi. destruct (Frame.bfill cells); [done |]. done.
Qed.

End FillCells.

(** X11: the imputation only fills gaps. A column it returns has the kind
    and the number of rows of the one it was given, every cell that held
    a value keeps it, and every missing cell of a numeric column takes
    the value pandas gives as the mean of the column. *)
Theorem impute_fills_gaps_only {pd : Pandas} (c c' : column) :
  impute c = Ok c' →
  Frame.col_length c' = Frame.col_length c ∧
  match c, c' with
  | NumCol cells, NumCol cells' =>
      (∀ i x, cells !! i = Some (Some x) → cells' !! i = Some (Some x)) ∧
      (∀ i, cells !! i = Some None → cells' !! i = Some (Frame.mean cells))
  | ObjCol cells, ObjCol cells' =>
      ∀ i x, cells !! i = Some (Some x) → cells' !! i = Some (Some x)
  | _, _ => False
  end.
Proof.
  destruct c as [cells | cells]; cbn [impute].
  - intros [= <-]. cbn [Frame.col_length].
    split; [apply fillna_length |]. split.
    + intros i x. apply fillna_lookup_present.
    + intros i Hi. destruct (Frame.mean cells) as [m |]; [| done].
      by apply fillna_lookup_missing.
  - destruct fillna_method_error; [done |]. intros [= <-]. cbn [Frame.col_length].
    unfold Frame.ffill. split; [by rewrite bfill_length, ffill_from_length |].
    intros i x Hi. by apply bfill_lookup_present, ffill_from_lookup_present.
Qed.

Lemma impute_fills_gaps_only_witness :
  let pd := pandas_3 in
  let cells := [Some (1 # 1)%Q; None; Some (2 # 1)%Q; None] in
  let cells' := [Some (1 # 1)%Q; Some (3 # 2)%Q; Some (2 # 1)%Q; Some (3 # 2)%Q] in
  length cells' = length cells ∧
  (∀ i x, cells !! i = Some (Some x) → cells' !! i = Some (Some x)) ∧
  (∀ i, cells !! i = Some None → cells' !! i = Some (Frame.mean cells)).
Proof.
  cbv zeta.
  apply (impute_fills_gaps_only (pd := pandas_3)
           (NumCol [Some (1 # 1)%Q; None; Some (2 # 1)%Q; None])
           (NumCol [Some (1 # 1)%Q; Some (3 # 2)%Q; Some (2 # 1)%Q; Some (3 # 2)%Q])).
  reflexivity.
Defined.

(** ** The repairs of structured artifacts *)

Lemma dict_set_keys k v d :
  (PyVal.dict_set k v d).*1 =
  if bool_decide (k ∈ d.*1) then d.*1 else (d.*1 ++ [k])%list.
Proof.
  induction d as [| [k' v'] d IH]; [done |].
  cbn [PyVal.dict_set fmap list_fmap fst].
  destruct (String.eqb_spec k k') as [<- | Hne].
  - rewrite bool_decide_eq_true_2 by apply list_elem_of_here. done.
  - cbn [fmap list_fmap fst]. fold (d.*1). rewrite IH.
    destruct (decide (k ∈ d.*1)) as [Hin | Hnin].
    + rewrite !bool_decide_eq_true_2; [done | by apply list_elem_of_further | done].
    + rewrite !bool_decide_eq_false_2; [done | | done].
      by intros [? | ?]%elem_of_cons.
Qed.

(** X12: the latency repair sets [p90_ms] to 400 in the profile and keeps
    everything else: every other key reads as before, and the keys keep
    their order, [p90_ms] going last when the profile did not have it. *)
Theorem latency_repair_keeps_profile {pd : Pandas}
    (fs fs' : filesystem) (base : string)
    (key : scenario_key) (d : list (string * pyval)) (msg : string) :
  s_type (SCENARIOS key) = high_latency →
  fs !! FS.join base "endpoint_profile.json" = Some (File (Json (PyDict d))) →
  apply_mitigation fs base key = (fs', (true, msg)) →
  ∃ d',
    fs' !! FS.join base "endpoint_profile.json" = Some (File (Json (PyDict d'))) ∧
    PyVal.dict_get "p90_ms" d' = Some (PyInt 400) ∧
    (∀ k, k ≠ "p90_ms" → PyVal.dict_get k d' = PyVal.dict_get k d) ∧
    d'.*1 = if bool_decide ("p90_ms" ∈ d.*1) then d.*1 else (d.*1 ++ ["p90_ms"])%list.
Proof.
  intros Hty Hfile Hmit%apply_mitigation_ok_inv.
  unfold apply_mitigation_body in Hmit. rewrite Hty in Hmit. cbv zeta in Hmit.
  rewrite (proj2 (read_json_Ok _ _ _) Hfile) in Hmit. cbn [mbind result_bind] in Hmit.
  apply write_result in Hmit. eexists. split; [exact Hmit |]. split_and!.
  - apply dict_get_set.
  - intros k Hk. by apply dict_get_set_ne.
  - apply dict_set_keys.
Qed.

Lemma latency_repair_keeps_profile_witness :
  let pd := pandas_3 in
  let d := [("notes", PyStr "slow"); ("p90_ms", PyInt 2500); ("region", PyStr "eu")] in
  let fs : filesystem :=
    {[ "/d" := Dir; FS.join "/d" "endpoint_profile.json" := File (Json (PyDict d)) ]} in
  ∃ d',
    (apply_mitigation fs "/d" Demo5).1 !! FS.join "/d" "endpoint_profile.json" =
      Some (File (Json (PyDict d'))) ∧
    PyVal.dict_get "p90_ms" d' = Some (PyInt 400) ∧
    (∀ k, k ≠ "p90_ms" → PyVal.dict_get k d' = PyVal.dict_get k d) ∧
    d'.*1 = ["notes"; "p90_ms"; "region"].
Proof.
  intros pd. cbv zeta.
  set (d := [("notes", PyStr "slow"); ("p90_ms", PyInt 2500); ("region", PyStr "eu")]).
  set (fs := ({[ _ := Dir; _ := _ ]} : filesystem)).
  assert ((apply_mitigation fs "/d" Demo5).2.1 = true) as Hok
    by (vm_compute; reflexivity).
  destruct (apply_mitigation fs "/d" Demo5) as [fs' [ok msg]] eqn:Hmit.
  cbn [fst snd] in *. subst ok.
  by apply (latency_repair_keeps_profile fs fs' "/d" Demo5 d msg).
Defined.

(** X13: the bucket repair sets [public_write] to false in the policy and
    keeps everything else: every other key reads as before, and the keys
    keep their order. *)
Theorem bucket_repair_keeps_policy {pd : Pandas}
    (fs fs' : filesystem) (base : string)
    (key : scenario_key) (d : list (string * pyval)) (msg : string) :
  s_type (SCENARIOS key) = public_bucket →
  fs !! FS.join base "iac.yaml" = Some (File (Yaml (PyDict d))) →
  apply_mitigation fs base key = (fs', (true, msg)) →
  ∃ d',
    fs' !! FS.join base "iac.yaml" = Some (File (Yaml (PyDict d'))) ∧
    PyVal.dict_get "public_write" d' = Some (PyBool false) ∧
    (∀ k, k ≠ "public_write" → PyVal.dict_get k d' = PyVal.dict_get k d) ∧
    d'.*1 = if bool_decide ("public_write" ∈ d.*1) then d.*1
            else (d.*1 ++ ["public_write"])%list.
Proof.
  intros Hty Hfile Hmit%apply_mitigation_ok_inv.
  unfold apply_mitigation_body in Hmit. rewrite Hty in Hmit. cbv zeta in Hmit.
  rewrite (proj2 (read_yaml_Ok _ _ _) Hfile) in Hmit. cbn [mbind result_bind] in Hmit.
  apply write_result in Hmit. eexists. split; [exact Hmit |]. split_and!.
  - apply dict_get_set.
  - intros k Hk. by apply dict_get_set_ne.
  - apply dict_set_keys.
Qed.

Lemma bucket_repair_keeps_policy_witness :
  let pd := pandas_3 in
  let d := [("bucket", PyStr "logs")] in
  let fs : filesystem :=
    {[ "/d" := Dir; FS.join "/d" "iac.yaml" := File (Yaml (PyDict d)) ]} in
  ∃ d',
    (apply_mitigation fs "/d" Demo6).1 !! FS.join "/d" "iac.yaml" =
      Some (File (Yaml (PyDict d'))) ∧
    PyVal.dict_get "public_write" d' = Some (PyBool false) ∧
    (∀ k, k ≠ "public_write" → PyVal.dict_get k d' = PyVal.dict_get k d) ∧
    d'.*1 = ["bucket"; "public_write"].
Proof.
  intros pd. cbv zeta.
  set (d := [("bucket", PyStr "logs")]).
  set (fs := ({[ _ := Dir; _ := _ ]} : filesystem)).
  assert ((apply_mitigation fs "/d" Demo6).2.1 = true) as Hok
    by (vm_compute; reflexivity).
  destruct (apply_mitigation fs "/d" Demo6) as [fs' [ok msg]] eqn:Hmit.
  cbn [fst snd] in *. subst ok.
  by apply (bucket_repair_keeps_policy fs fs' "/d" Demo6 d msg).
Defined.

Lemma get_column_set name col df :
  Frame.get_column name (Frame.set_column name col df) = Some col.
Proof.
  induction df as [| [n c] df IH]; cbn.
  - by rewrite String.eqb_refl.
  - destruct (String.eqb name n) eqn:Heq; cbn; by rewrite Heq.
Qed.

Lemma get_column_set_ne name name' col df :
  name ≠ name' →
  Frame.get_column name' (Frame.set_column name col df) = Frame.get_column name' df.
Proof.
  intros Hne. induction df as [| [n c] df IH]; cbn.
  - destruct (String.eqb_spec name' name); [congruence | done].
  - destruct (String.eqb_spec name n) as [<- | Hn]; cbn.
    + destruct (String.eqb_spec name' name); [congruence | done].
    + by destruct (String.eqb name' n).
Qed.

Lemma has_column_get_none name df :
  Frame.has_column name df = false → Frame.get_column name df = None.
Proof.
  unfold Frame.has_column. induction df as [| [n c] df IH]; [done |].
  cbn. destruct (String.eqb name n); [done | apply IH].
Qed.

(** X14: the schema repair gives the data set a [target] column and keeps
    every other column. A data set that has [target] is written back as it
    is; one without it gets a copy of [label], or a column of zeros, one
    per row, when it has no [label] either. *)
Theorem schema_repair_target {pd : Pandas} (fs fs' : filesystem) (base : string)
    (key : scenario_key) (df : DataFrame) (msg : string) :
  s_type (SCENARIOS key) = schema_drift →
  fs !! FS.join base "training.csv" = Some (File (Csv df)) →
  apply_mitigation fs base key = (fs', (true, msg)) →
  ∃ df',
    fs' !! FS.join base "training.csv" = Some (File (Csv df')) ∧
    Frame.get_column "target" df' =
      match Frame.get_column "target" df, Frame.get_column "label" df with
      | Some target, _ => Some target
      | None, Some label => Some label
      | None, None => Some (NumCol (replicate (Frame.nrows df) (Some (0 # 1)%Q)))
      end ∧
    (∀ name, name ≠ "target" →
             Frame.get_column name df' = Frame.get_column name df).
Proof.
  intros Hty Hfile Hmit%apply_mitigation_ok_inv.
  unfold apply_mitigation_body in Hmit. rewrite Hty in Hmit. cbv zeta in Hmit.
  rewrite (proj2 (read_csv_Ok _ _ _) Hfile) in Hmit. cbn [mbind result_bind] in Hmit.
  apply open_write_result in Hmit. eexists. split; [exact Hmit |].
  destruct (Frame.has_column "target" df) eqn:Htarget.
  - destruct (has_column_get _ _ Htarget) as [target Hget].
    rewrite andb_false_r, Hget. cbn [negb]. done.
  - rewrite (has_column_get_none _ _ Htarget), andb_true_r. cbn [negb].
    destruct (Frame.has_column "label" df) eqn:Hlabel.
    + destruct (has_column_get _ _ Hlabel) as [label ->].
      split; [apply get_column_set | intros name Hne; by apply get_column_set_ne].
    + rewrite (has_column_get_none _ _ Hlabel).
      split; [apply get_column_set | intros name Hne; by apply get_column_set_ne].
Qed.

Lemma schema_repair_target_witness :
  let pd := pandas_3 in
  let df : DataFrame := [("feature", NumCol [Some (1 # 1)%Q; Some (2 # 1)%Q])] in
  let fs : filesystem :=
    {[ "/d" := Dir; FS.join "/d" "training.csv" := File (Csv df) ]} in
  ∃ df',
    (apply_mitigation fs "/d" Demo8).1 !! FS.join "/d" "training.csv" =
      Some (File (Csv df')) ∧
    Frame.get_column "target" df' =
      Some (NumCol [Some (0 # 1)%Q; Some (0 # 1)%Q]) ∧
    (∀ name, name ≠ "target" →
             Frame.get_column name df' = Frame.get_column name df).
Proof.
  intros pd. cbv zeta.
  set (df := [("feature", NumCol [Some (1 # 1)%Q; Some (2 # 1)%Q])]).
  set (fs := ({[ _ := Dir; _ := _ ]} : filesystem)).
  assert ((apply_mitigation fs "/d" Demo8).2.1 = true) as Hok
    by (vm_compute; reflexivity).
  destruct (apply_mitigation fs "/d" Demo8) as [fs' [ok msg]] eqn:Hmit.
  cbn [fst snd] in *. subst ok.
  by apply (schema_repair_target fs fs' "/d" Demo8 df msg).
Defined.

(** ** What a mitigation leaves alone, and a second mitigation *)

Lemma open_write_inv fs p a fs' :
  FS.open_write fs p a = Ok fs' →
  fs' = <[p := File a]> fs ∧ fs !! FS.dirname p = Some Dir.
Proof.
  unfold FS.open_write.
  destruct (fs !! p) as [[| ?] |]; [done | |];
    (destruct (fs !! FS.dirname p) as [[| ?] |]; [| done | done]);
    by intros [= <-].
Qed.

Lemma write_inv fs base n a fs' :
  write fs (FS.join base n) a = Ok fs' →
  base ≠ "" → slash_free n →
  ∃ fs0, FS.makedirs fs base = Ok fs0 ∧
         fs' = <[FS.join base n := File a]> fs0 ∧ dir_ok fs' base.
Proof.
  intros H Hne Hfree. unfold write in H. rewrite dirname_join in H by done.
  destruct (bind_Ok _ _ _ H) as (fs0 & Hmk & Hw).
  apply open_write_inv in Hw as [-> _]. exists fs0. split_and!; [done | done |].
  by apply dir_ok_insert, makedirs_dir_ok with fs.
Qed.




Lemma write_frame fs base n a fs' q :
  base ≠ "" → slash_free n →
  write fs (FS.join base n) a = Ok fs' →
  q ≠ FS.join base n → q ∉ (FS.ancestors base ++ [base])%list →
  fs' !! q = fs !! q.
Proof.
  intros Hne Hfree Hw Hq Hanc.
  destruct (write_inv _ _ _ _ _ Hw Hne Hfree) as (fs0 & Hmk & -> & _).
  rewrite lookup_insert_ne by done. rewrite makedirs_nonempty in Hmk by done.
  by apply (mkdirs_frame _ _ _ q Hmk).
Qed.

Lemma open_write_frame fs p a fs' q :
  FS.open_write fs p a = Ok fs' → q ≠ p → fs' !! q = fs !! q.
Proof. intros [-> _]%open_write_inv Hq. by apply lookup_insert_ne. Qed.

Lemma open_append_frame fs p s fs' q :
  FS.open_append fs p s = Ok fs' → q ≠ p → fs' !! q = fs !! q.
Proof.
  unfold FS.open_append. destruct (fs !! p) as [[| []] |] eqn:Hp; try done;
    try (by intros [= <-]).
  - intros [= <-] Hq. by apply lookup_insert_ne.
  - apply open_write_frame.
Qed.

Lemma apply_mitigation_untouched {pd : Pandas} (fs : filesystem) (base : string)
    (key : scenario_key) (q : string) :
  base ≠ "" →
  q ≠ FS.join base (repaired_name (s_type (SCENARIOS key))) →
  q ∉ (FS.ancestors base ++ [base])%list →
  (apply_mitigation fs base key).1 !! q = fs !! q.
Proof.
  intros Hne Hq Hanc. unfold apply_mitigation.
  destruct (apply_mitigation_body fs base key) as [fs' | e] eqn:Hbody; [| done].
  cbn [fst]. unfold apply_mitigation_body in Hbody.
  destruct key; cbn [SCENARIOS s_type repaired_name] in *; cbv zeta in Hbody.
  - by eapply open_append_frame.
  - destruct (bind_Ok _ _ _ Hbody) as (txt & _ & Hw).
    eapply write_frame; [exact Hne | | exact Hw | exact Hq | exact Hanc]; reflexivity.
  - eapply write_frame; [exact Hne | | exact Hbody | exact Hq | exact Hanc];
      reflexivity.
  - destruct (bind_Ok _ _ _ Hbody) as (df & _ & Hbody').
    destruct (bind_Ok _ _ _ Hbody') as (df' & _ & Hw). by eapply open_write_frame.
  - destruct (bind_Ok _ _ _ Hbody) as (prof & _ & Hw). destruct prof; try done.
    eapply write_frame; [exact Hne | | exact Hw | exact Hq | exact Hanc]; reflexivity.
  - destruct (bind_Ok _ _ _ Hbody) as (policy & _ & Hw). destruct policy; try done.
    eapply write_frame; [exact Hne | | exact Hw | exact Hq | exact Hanc]; reflexivity.
  - destruct (bind_Ok _ _ _ Hbody) as (txt & _ & Hw).
    eapply write_frame; [exact Hne | | exact Hw | exact Hq | exact Hanc]; reflexivity.
  - destruct (bind_Ok _ _ _ Hbody) as (df & _ & Hw). by eapply open_write_frame.
Qed.

(** X15: a mitigation writes one file. Whether it succeeds or not, every
    path other than the scenario's repaired file and the directories on
    the way to the assets directory holds afterwards what it held before. *)
Theorem apply_mitigation_frame {pd : Pandas} (fs : filesystem) (base : string)
    (key : scenario_key) (q : string) :
  base ≠ "" →
  q ≠ FS.join base (repaired_name (s_type (SCENARIOS key))) →
  q ∉ (FS.ancestors base ++ [base])%list →
  (apply_mitigation fs base key).1 !! q = fs !! q.
Proof. apply apply_mitigation_untouched. Qed.

Lemma apply_mitigation_frame_witness :
  let pd := pandas_3 in
  let fs : filesystem :=
    {[ "/d" := Dir; FS.join "/d" ".env" := File (Text "DB_USER=");
       FS.join "/d" "provision.yaml" := File (Text "service: nlp") ]} in
  (apply_mitigation fs "/d" Demo3).1 !! FS.join "/d" "provision.yaml" =
  fs !! FS.join "/d" "provision.yaml".
Proof.
  intros pd. cbv zeta. apply apply_mitigation_frame; [done | done |].
  apply (bool_decide_unpack _). vm_compute. reflexivity.
Defined.










(** ** One demo's work and another demo's files *)

Lemma ancestors_aux_prefix seen rest q :
  q ∈ FS.ancestors_aux seen rest → String.prefix q (seen +:+ rest) = true.
Proof.
  revert seen. induction rest as [| c r IH]; intros seen Hin;
    cbn [FS.ancestors_aux] in Hin.
  - by apply not_elem_of_nil in Hin.
  - apply elem_of_app in Hin as [Hin | Hin].
    + destruct (FS.is_slash c && nonempty seen); [| by apply not_elem_of_nil in Hin].
      apply list_elem_of_singleton in Hin as ->. apply prefix_app.
    + apply IH in Hin. by rewrite string_app_assoc in Hin.
Qed.

Lemma prefix_refl s : String.prefix s s = true.
Proof. induction s as [| c s IH]; [done |]. cbn. by destruct (Ascii.ascii_dec c c). Qed.

Lemma ancestors_prefix base q :
  q ∈ (FS.ancestors base ++ [base])%list → String.prefix q base = true.
Proof.
  intros [Hin | Hin]%elem_of_app.
  - by apply ancestors_aux_prefix in Hin.
  - apply list_elem_of_singleton in Hin as ->. apply prefix_refl.
Qed.

Lemma other_demo_not_below k k' n :
  k ≠ k' → FS.below (assets_dir_of k) (FS.join (assets_dir_of k') n) = false.
Proof. intros Hne. destruct k, k'; try done; vm_compute; reflexivity. Qed.

Lemma other_demo_not_prefix k k' n :
  k ≠ k' → String.prefix (FS.join (assets_dir_of k') n) (assets_dir_of k) = false.
Proof. intros Hne. destruct k, k'; try done; vm_compute; reflexivity. Qed.

Lemma other_demo_path k k' n :
  k ≠ k' →
  (∀ m, FS.join (assets_dir_of k') n ≠ FS.join (assets_dir_of k) m) ∧
  (FS.join (assets_dir_of k') n
     ∉ (FS.ancestors (assets_dir_of k) ++ [assets_dir_of k])%list) ∧
  FS.below (assets_dir_of k) (FS.join (assets_dir_of k') n) = false.
Proof.
  intros Hne. split_and!.
  - intros m Heq. pose proof (below_join (assets_dir_of k) m) as Hbelow.
    rewrite <- Heq in Hbelow. by rewrite other_demo_not_below in Hbelow.
  - intros Hin%ancestors_prefix. by rewrite other_demo_not_prefix in Hin.
  - by apply other_demo_not_below.
Qed.

Lemma handle_fix_fs {pd : Pandas} fix_btn run_btn ss fs dir key :
  fix_fs (handle_fix fix_btn run_btn ss fs dir key) = fs ∨
  fix_fs (handle_fix fix_btn run_btn ss fs dir key) = (apply_mitigation fs dir key).1.
Proof.
  unfold handle_fix. destruct fix_btn; cbn [negb]; [| by left].
  destruct (last_failure ss); [| by left].
  destruct (2 <=? debug_attempts ss); [by left |].
  destruct (apply_mitigation fs dir key) as [fs' [[] msg]]; by right.
Qed.

(** X17: the assets of the demos are kept apart. One run of the script,
    whatever the buttons and whether or not it ends in an exception, leaves
    every file in the assets directory of a demo other than the selected
    one as it was. *)
Theorem script_keeps_other_demos {pd : Pandas}
    (w : widgets) (ss : session) (fs : filesystem)
    (k' : scenario_key) (n : string) :
  k' ≠ w_demo w →
  out_fs (script w ss fs) !! FS.join (assets_dir_of k') n =
  fs !! FS.join (assets_dir_of k') n.
Proof.
  intros Hother.
  destruct (other_demo_path (w_demo w) k' n) as (Hfile & Hanc & Hbelow); [done |].
  pose proof (assets_dir_of_nonempty (w_demo w)) as Hdir.
  unfold script.
  set (dir := assets_dir_of (w_demo w)) in *.
  set (r := handle_fix _ _ _ _ _ _).
  assert (fix_fs r !! FS.join (assets_dir_of k') n =
          fs !! FS.join (assets_dir_of k') n) as Hfix.
  { destruct (handle_fix_fs (w_fix w) (w_run w)
                (set_selection (w_cloud w) (w_demo w) dir ss) fs dir (w_demo w))
      as [Heq | Heq]; fold r in Heq; rewrite Heq; [done |].
    by apply apply_mitigation_untouched. }
  destruct (negb (FS.exists_ (fix_fs r) dir) ||
            (match last_run_logs (fix_session r) with [] => true | _ => false end) ||
            fix_run_btn r).
  - destruct (generate_assets (fix_fs r) dir (w_demo w)) as [fs' | e] eqn:Hgen.
    + destruct (if fix_run_btn r then _ else _). cbn [out_fs].
      rewrite <- Hfix. by apply (generate_assets_untouched _ _ dir (w_demo w)).
    + done.
  - destruct (if fix_run_btn r then _ else _). done.
Qed.

Lemma script_keeps_other_demos_witness :
  let pd := pandas_3 in
  let kept := FS.join (assets_dir_of Demo5) "endpoint_profile.json" in
  let fs : filesystem := {[ kept := File (Json (PyDict [("p90_ms", PyInt 400)])) ]} in
  out_fs (script (press_run AWS Demo2) init_state fs) !! kept = fs !! kept.
Proof.
  intros pd. cbv zeta. by apply (script_keeps_other_demos (press_run AWS Demo2)).
Defined.

(** ** The sessions the script can reach *)

Lemma handle_fix_session {pd : Pandas} fix_btn run_btn ss fs dir key :
  let ss' := fix_session (handle_fix fix_btn run_btn ss fs dir key) in
  ss' = ss ∨ (debug_attempts ss < 2 ∧ ss' = set_debug_attempts (debug_attempts ss + 1) ss).
Proof.
  cbv zeta. unfold handle_fix. destruct fix_btn; cbn [negb]; [| by left].
  destruct (last_failure ss); [| by left].
  destruct (Z.leb_spec 2 (debug_attempts ss)); [by left |].
  destruct (apply_mitigation fs dir key) as [fs' [[] msg]]; [by right | by left].
Qed.

Lemma script_consistent {pd : Pandas} w ss fs :
  consistent ss → consistent (out_session (script w ss fs)).
Proof.
  intros (Hatt & Hrun & Hshape). unfold script.
  set (dir := assets_dir_of (w_demo w)).
  set (ss0 := set_selection _ _ _ ss).
  assert (consistent (fix_session (handle_fix (w_fix w) (w_run w) ss0 fs dir (w_demo w))))
    as Hfix.
  { destruct (handle_fix_session (w_fix w) (w_run w) ss0 fs dir (w_demo w))
      as [-> | [Hlt ->]].
    - done.
    - unfold ss0 in *. cbn in Hlt. split_and!; cbn; first [lia | done]. }
  set (r := handle_fix _ _ _ _ _ _) in *.
  match goal with
  | |- context [match ?g with Ok _ => _ | Raise _ => _ end] =>
      destruct g as [fs' | e]
  end; [| done].
  destruct (fix_run_btn r); [| done].
  pose proof (run_pipeline_spec fs' dir (w_demo w) (fix_session r))
    as (Hdone & Hfail & _ & Hlen & Hrunning & Hsame).
  cbv zeta in *.
  destruct (run_pipeline fs' dir (w_demo w) (fix_session r)) as [s u].
  cbn [fst out_session] in *. destruct Hfix as (Hatt' & _ & _).
  split; [lia |]. split; [done |].
  destruct (check_step_truth fs' dir (w_demo w) _) as [[] detail]; cbn [fst snd] in *.
  - right. by left.
  - right. right. by exists (w_demo w), detail.
Qed.

(** X18: every session the script can reach from a fresh one is
    consistent, whatever the sequence of selections and buttons, whatever
    the disk holds and whether or not an exception ends some of the runs
    on the way: the attempt count stays between 0 and 2, the
    running flag is down, and the run record is that of no run yet, of a
    completed run with its 20 log lines, or of a run stopped at the
    failing step of a scenario with one log line per step reached. *)
Theorem reachable_sessions_consistent {pd : Pandas}
    (ws : list widgets) (fs : filesystem) :
  consistent (interact ws init_state fs).1.1.
Proof.
  assert (consistent init_state) as Hinit.
  { split; [done |]. split; [done |]. by left. }
  revert Hinit. generalize init_state. revert fs.
  induction ws as [| w ws IH]; intros fs ss Hss; [done |].
  cbn [interact]. pose proof (script_consistent w ss fs Hss) as Hstep.
  specialize (IH (out_fs (script w ss fs)) _ Hstep).
  by destruct (interact ws _ _) as [[ss' fs'] later].
Qed.

(** ** What fills a gap in a column of dtype object *)

Section FillValue.

Context {A : Type}.
Implicit Types cells : list (option A).

Lemma ffill_from_lookup prev cells (i : nat) :
  (i < length cells)%nat →
  Frame.ffill_from prev cells !! i =
  Some (match last (omap id (take (S i) cells)) with
        | Some y => Some y
        | None => prev
        end).
Proof.
  revert prev i. induction cells as [| c cells IH]; intros prev i Hi;
    [cbn in Hi; lia |].
  destruct i as [| i].
  - destruct c as [x |]; cbn; [done |]. by rewrite take_0.
  - cbn [length] in Hi. destruct c as [x |]; cbn [Frame.ffill_from lookup list_lookup take omap id];
      rewrite IH by lia.
    + change (list_omap (option A) A id (Some x :: take (S i) cells))
        with (x :: omap id (take (S i) cells)).
      rewrite last_cons. by destruct (last (omap id (take (S i) cells))).
    + done.
Qed.

Lemma bfill_tail c cells (i : nat) :
  (i < length cells)%nat → Frame.bfill (c :: cells) !! S i = Frame.bfill cells !! i.
Proof.
  intros Hi. cbn [Frame.bfill]. destruct c as [x |]; [done |].
  destruct (Frame.bfill cells) as [| v r] eqn:Hb; [| done].
  pose proof (bfill_length cells) as Hlen. rewrite Hb in Hlen. cbn in Hlen. lia.
Qed.

Lemma bfill_lookup cells (i : nat) :
  (i < length cells)%nat →
  Frame.bfill cells !! i = Some (head (omap id (drop i cells))).
Proof.
  revert i. induction cells as [| c cells IH]; intros i Hi; [cbn in Hi; lia |].
  cbn [length] in Hi. destruct i as [| i].
  - destruct c as [x |]; [done |]. cbn [Frame.bfill drop omap].
    destruct (Frame.bfill cells) as [| v r] eqn:Hb.
    + pose proof (bfill_length cells) as Hlen. rewrite Hb in Hlen.
      destruct cells; [done | cbn in Hlen; lia].
    + pose proof (bfill_length cells) as Hlen. rewrite Hb in Hlen.
      cbn [length] in Hlen.
      pose proof (IH 0%nat ltac:(lia)) as H0.
      rewrite drop_0 in H0. exact H0.
  - rewrite bfill_tail by lia. rewrite IH by lia. done.
Qed.

Lemma ffill_from_drop cells (k : nat) :
  omap id (take k cells) = [] →
  drop k (Frame.ffill_from None cells) = Frame.ffill_from None (drop k cells).
Proof.
  revert k. induction cells as [| c cells IH]; intros k Hk; [by destruct k |].
  destruct k as [| k]; [done |]. destruct c as [x |]; [done |].
  cbn in *. by apply IH.
Qed.

Lemma ffill_from_head cells :
  head (omap id (Frame.ffill_from None cells)) = head (omap id cells).
Proof. induction cells as [| [x |] cells IH]; done. Qed.

Lemma bfill_ffill_gap cells (i : nat) :
  cells !! i = Some None →
  Frame.bfill (Frame.ffill cells) !! i =
  Some (match prev_value cells i with
        | Some x => Some x
        | None => next_value cells i
        end).
Proof.
  intros Hi. pose proof (lookup_lt_Some _ _ _ Hi) as Hlt.
  unfold Frame.ffill, prev_value, next_value.
  rewrite bfill_lookup by (by rewrite ffill_from_length).
  pose proof (ffill_from_lookup None cells i Hlt) as Hf.
  rewrite (take_S_r _ _ _ Hi), omap_app in Hf. cbn in Hf. rewrite app_nil_r in Hf.
  destruct (last (omap id (take i cells))) as [y |] eqn:Hlast.
  - rewrite (drop_S _ _ _ Hf). done.
  - rewrite (drop_S _ _ _ Hf). cbn [omap id]. f_equal.
    assert (omap id (take (S i) cells) = []) as Hnone.
    { rewrite (take_S_r _ _ _ Hi), omap_app. cbn. rewrite app_nil_r.
      destruct (omap id (take i cells)) as [| z l] eqn:Hl; [done |].
      by rewrite last_cons in Hlast; destruct (last l). }
    rewrite ffill_from_drop by done. apply ffill_from_head.
Qed.

End FillValue.

(** X19: under a pandas that takes [fillna(method=...)], a gap in a column
    of dtype object is filled with the nearest value above it, and with
    the nearest value below it when there is none above; it stays a gap
    only when the column holds no value at all. *)
Theorem impute_object_gap {pd : Pandas}
    (cells : list (option string)) (i : nat) :
  fillna_method_error = None →
  cells !! i = Some None →
  ∃ cells', impute (ObjCol cells) = Ok (ObjCol cells') ∧
    cells' !! i = Some (match prev_value cells i with
                        | Some x => Some x
                        | None => next_value cells i
                        end).
Proof.
  intros Hmethod Hi. eexists. cbn [impute]. rewrite Hmethod.
  split; [done |]. by apply bfill_ffill_gap.
Qed.

Lemma impute_object_gap_witness :
  let pd := pandas_2 in
  ∃ cells',
    impute (ObjCol [None; Some "a"; None; None; Some "b"; None]) =
      Ok (ObjCol cells') ∧
    cells' !! 3%nat = Some (Some "a").
Proof.
  intros pd.
  apply (impute_object_gap [None; Some "a"; None; None; Some "b"; None] 3);
    reflexivity.
Defined.

(** X25: under a pandas without [fillna(method=...)] the mitigation of the
    missing values fails on every data set that has a column of dtype
    object, with or without a gap: the imputation raises at that column,
    the mitigation reports the error and [data.csv] is not written. *)
Theorem imputation_needs_fillna_method {pd : Pandas} (fs : filesystem)
    (base : string) (key : scenario_key) (df : DataFrame) (msg name : string)
    (cells : list (option string)) :
  s_type (SCENARIOS key) = null_values →
  fs !! FS.join base "data.csv" = Some (File (Csv df)) →
  fillna_method_error = Some msg →
  (name, ObjCol cells) ∈ df →
  apply_mitigation fs base key = (fs, (false, "mitigation error: " +:+ msg)).
Proof.
  intros Hty Hdf Hmethod Hin. unfold apply_mitigation, apply_mitigation_body.
  rewrite Hty. cbv zeta. rewrite (proj2 (read_csv_Ok _ _ _) Hdf).
  cbn [mbind result_bind].
  assert (impute_frame df = Raise (TypeError msg)) as ->; [| done].
  clear Hdf. induction df as [| [n c] df IH]; [by apply elem_of_nil in Hin |].
  cbn [impute_frame]. apply elem_of_cons in Hin as [[= <- <-] | Hin].
  - cbn [impute]. by rewrite Hmethod.
  - destruct c as [nums | objs]; cbn [impute].
    + cbn [mbind result_bind]. by rewrite (IH Hin).
    + by rewrite Hmethod.
Qed.

Lemma imputation_needs_fillna_method_witness :
  let pd := pandas_3 in
  let df : DataFrame :=
    [("amount", NumCol [Some (100 # 1)%Q; None]);
     ("merchant", ObjCol [Some "a"; Some "b"])] in
  let fs : filesystem :=
    {[ "/d" := Dir; FS.join "/d" "data.csv" := File (Csv df) ]} in
  apply_mitigation fs "/d" Demo4 =
  (fs, (false,
        "mitigation error: NDFrame.fillna() got an unexpected keyword argument 'method'")).
Proof.
  intros pd. cbv zeta.
  apply (imputation_needs_fillna_method
           {[ "/d" := Dir;
              FS.join "/d" "data.csv" :=
                File (Csv [("amount", NumCol [Some (100 # 1)%Q; None]);
                           ("merchant", ObjCol [Some "a"; Some "b"])]) ]}
           "/d" Demo4
           [("amount", NumCol [Some (100 # 1)%Q; None]);
            ("merchant", ObjCol [Some "a"; Some "b"])]
           "NDFrame.fillna() got an unexpected keyword argument 'method'"
           "merchant" [Some "a"; Some "b"]).
  - reflexivity.
  - vm_compute. reflexivity.
  - reflexivity.
  - apply list_elem_of_further, list_elem_of_here.
Defined.

(** ** The verdict of the runs the script makes *)

Lemma handle_fix_completed {pd : Pandas} fix_btn run_btn ss fs dir key :
  pipeline_completed (fix_session (handle_fix fix_btn run_btn ss fs dir key)) =
  pipeline_completed ss.
Proof.
  destruct (handle_fix_session fix_btn run_btn ss fs dir key) as [-> | [_ ->]];
    done.
Qed.

Lemma script_run_flag {pd : Pandas}
    (w : widgets) (ss : session) (fs : filesystem) :
  let dir := assets_dir_of (w_demo w) in
  let r := handle_fix (w_fix w) (w_run w)
             (set_selection (w_cloud w) (w_demo w) dir ss) fs dir (w_demo w) in
  let o := script w ss fs in
  out_crash o = None →
  pipeline_completed (out_session o) =
  if fix_run_btn r then fresh_pass_flag (s_type (SCENARIOS (w_demo w)))
  else pipeline_completed ss.
Proof.
  cbv zeta. unfold script.
  set (dir := assets_dir_of (w_demo w)).
  set (ss0 := set_selection _ _ _ ss).
  pose proof (handle_fix_completed (w_fix w) (w_run w) ss0 fs dir (w_demo w)) as Hkeep.
  set (r := handle_fix _ _ _ _ _ _) in *.
  destruct (fix_run_btn r) eqn:Hrun.
  - rewrite !orb_true_r.
    destruct (generate_assets (fix_fs r) dir (w_demo w)) as [fs' | e] eqn:Hgen;
      [| done].
    intros _.
    pose proof (run_pipeline_spec fs' dir (w_demo w) (fix_session r)) as (Hdone & _).
    cbv zeta in Hdone.
    destruct (run_pipeline fs' dir (w_demo w) (fix_session r)) as [s u].
    cbn [fst out_session] in *. rewrite Hdone.
    apply (generated_pass_flag (fix_fs r) fs' dir (w_demo w));
      [apply assets_dir_of_nonempty | exact Hgen].
  - match goal with
    | |- context [match ?g with Ok _ => _ | Raise _ => _ end] =>
        destruct g as [fs' | e]
    end; [| done].
    intros _. cbn [out_session]. exact Hkeep.
Qed.

(** X20: the verdict of a run the script makes does not depend on the
    session, on the disk or on the repairs made: after the run button or a
    successful fix, a run that no exception ends completes for the
    dependency scenario and for no other one. *)
Theorem script_pipeline_verdict {pd : Pandas}
    (w : widgets) (ss : session) (fs : filesystem) :
  let dir := assets_dir_of (w_demo w) in
  let r := handle_fix (w_fix w) (w_run w)
             (set_selection (w_cloud w) (w_demo w) dir ss) fs dir (w_demo w) in
  let o := script w ss fs in
  fix_run_btn r = true →
  out_crash o = None →
  pipeline_completed (out_session o) =
  fresh_pass_flag (s_type (SCENARIOS (w_demo w))).
Proof.
  cbv zeta. intros Hrun Hok.
  pose proof (script_run_flag w ss fs) as H. cbv zeta in H.
  rewrite Hrun in H. by apply H.
Qed.

Lemma script_pipeline_verdict_witness :
  let pd := pandas_3 in
  pipeline_completed (out_session (script (press_run Azure Demo5) init_state ∅)) =
  fresh_pass_flag (s_type (SCENARIOS Demo5)).
Proof.
  intros pd. cbv zeta.
  apply (script_pipeline_verdict (press_run Azure Demo5) init_state ∅);
    vm_compute; reflexivity.
Defined.

Lemma handle_fix_run_btn {pd : Pandas} fix_btn run_btn ss fs dir key :
  fix_run_btn (handle_fix fix_btn run_btn ss fs dir key) = true →
  (run_btn || fix_btn = true)%bool.
Proof.
  unfold handle_fix. destruct fix_btn; [by rewrite orb_true_r |].
  cbn. intros ->. done.
Qed.

Lemma script_completed {pd : Pandas}
    (w : widgets) (ss : session) (fs : filesystem) :
  pipeline_completed (out_session (script w ss fs)) = pipeline_completed ss ∨
  ((w_run w || w_fix w = true)%bool ∧
   pipeline_completed (out_session (script w ss fs)) =
   fresh_pass_flag (s_type (SCENARIOS (w_demo w)))).
Proof.
  destruct (out_crash (script w ss fs)) as [e |] eqn:Hcrash.
  - left. revert Hcrash. unfold script.
    set (dir := assets_dir_of (w_demo w)).
    set (ss0 := set_selection _ _ _ ss).
    pose proof (handle_fix_completed (w_fix w) (w_run w) ss0 fs dir (w_demo w)) as Hkeep.
    set (r := handle_fix _ _ _ _ _ _) in *.
    match goal with
    | |- context [match ?g with Ok _ => _ | Raise _ => _ end] =>
        destruct g as [fs' | e']
    end.
    + by destruct (if fix_run_btn r then _ else _).
    + intros _. exact Hkeep.
  - pose proof (script_run_flag w ss fs) as H. cbv zeta in H.
    rewrite (H Hcrash).
    destruct (fix_run_btn _) eqn:Hrun; [right | by left].
    split; [| done]. by apply handle_fix_run_btn in Hrun.
Qed.

Lemma interact_never_completes {pd : Pandas} ws ss fs :
  Forall (λ w, (w_run w || w_fix w = true)%bool →
               s_type (SCENARIOS (w_demo w)) ≠ missing_dependency) ws →
  pipeline_completed ss = false →
  pipeline_completed (interact ws ss fs).1.1 = false.
Proof.
  revert ss fs. induction ws as [| w ws IH]; intros ss fs Hws Hss; [done |].
  apply Forall_cons in Hws as [Hw Hws]. cbn [interact].
  assert (pipeline_completed (out_session (script w ss fs)) = false) as Hstep.
  { destruct (script_completed w ss fs) as [-> | [Hbtn ->]]; [done |].
    specialize (Hw Hbtn). by destruct (s_type (SCENARIOS (w_demo w))). }
  specialize (IH _ (out_fs (script w ss fs)) Hws Hstep).
  by destruct (interact ws _ _) as [[ss' fs'] later].
Qed.

(** X21: no sequence of actions in which the run and fix buttons are
    pressed only on the seven demos other than the dependency one ever
    completes the pipeline, whatever the disk holds at the start and
    whether or not a run is ended by an exception on the way. *)
Theorem failing_demos_never_complete {pd : Pandas}
    (ws : list widgets) (fs : filesystem) :
  Forall (λ w, (w_run w || w_fix w = true)%bool →
               s_type (SCENARIOS (w_demo w)) ≠ missing_dependency) ws →
  pipeline_completed (interact ws init_state fs).1.1 = false.
Proof. intros Hws. by apply interact_never_completes. Qed.

Lemma failing_demos_never_complete_witness :
  let pd := pandas_3 in
  pipeline_completed
    (interact [select AWS Demo1; select AWS Demo2; press_run AWS Demo2;
               press_fix AWS Demo2; press_fix AWS Demo2;
               select GCP Demo7; press_run GCP Demo7; press_fix GCP Demo7]
       init_state ∅).1.1 = false.
Proof.
  intros pd. cbv zeta.
  apply (failing_demos_never_complete
           [select AWS Demo1; select AWS Demo2; press_run AWS Demo2;
            press_fix AWS Demo2; press_fix AWS Demo2;
            select GCP Demo7; press_run GCP Demo7; press_fix GCP Demo7] ∅).
  repeat (apply Forall_cons; split;
          [first [intros _; discriminate | intros H; discriminate H] |]).
  apply Forall_nil_2.
Defined.

(** ** The check and the mitigation on a missing artifact *)










(** ** The table of services *)

(** X24: the table of every provider names a service for each step the
    loop enumerates and for no other index, so that the empty default of
    the lookup is never shown. *)
Theorem cloud_map_covers_steps (c : provider) (idx : Z) :
  (∃ service, CLOUD_MAP c !! idx = Some service ∧ service ≠ "") ↔
  idx ∈ (enumerate 1 STEPS).*1.
Proof.
  split.
  - intros (service & Hsome & _).
    destruct (decide (1 <= idx <= 20)) as [Hin | Hout].
    + assert (idx = 1 ∨ idx = 2 ∨ idx = 3 ∨ idx = 4 ∨ idx = 5 ∨ idx = 6 ∨ idx = 7 ∨
              idx = 8 ∨ idx = 9 ∨ idx = 10 ∨ idx = 11 ∨ idx = 12 ∨ idx = 13 ∨
              idx = 14 ∨ idx = 15 ∨ idx = 16 ∨ idx = 17 ∨ idx = 18 ∨ idx = 19 ∨
              idx = 20) as Hcases by lia.
      cbn. rewrite !elem_of_cons. tauto.
    + exfalso. assert (CLOUD_MAP c !! idx = None) as Hnone; [| congruence].
      unfold CLOUD_MAP. apply not_elem_of_list_to_map_1.
      destruct c; cbn; rewrite !not_elem_of_cons; split_and!;
        first [lia | apply not_elem_of_nil].
  - cbn. rewrite !elem_of_cons, elem_of_nil.
    intros Hcases. destruct c;
      repeat (destruct Hcases as [-> | Hcases];
              [eexists; split; [vm_compute; reflexivity | discriminate] |]);
      done.
Qed.
